(** * Training driver of the YouTube-8M models: [train-with-rebuild.py]

    A shallow embedding of the label reshaping and loss composition of
    [build_graph], of the class lookup by name, of the role dispatch of
    [main] and of the control flow of [Trainer.run], with the properties
    the specification states about them.

    Conventions.  Tensors of [float32] are read over the exact rationals
    [Q]: a batch is a list of rows.  The TensorFlow runtime, the file
    system, the clock and the modules [eval_util], [losses], [utils] are
    collaborators of the program; they appear as the fields of the
    classes [Runtime], [LossFn] and [Registry.Modules], so every theorem
    holds for each behaviour they can have.  Exceptions are values of [exn], and a computation that can
    raise returns a [result]. *)

From Stdlib Require Import ZArith QArith Qminmax Lia Bool List.
From stdpp Require Import base strings gmap pretty.
Import ListNotations.

Local Open Scope Z_scope.

(** ** Exceptions and results *)

Inductive exn : Type :=
| StandardError (msg : string)
| ValueError (msg : string)
| IOError (msg : string)
| TypeError (msg : string)
| KeyError (key : string)
| AttributeError (msg : string)
| StopIteration
| OutOfRangeError
| ZeroDivisionError (msg : string)
| RuntimeFailure (msg : string).

Inductive result (A : Type) : Type :=
| Ok (a : A)
| Raise (e : exn).
Arguments Ok {A} a.
Arguments Raise {A} e.

Definition raises {A : Type} (r : result A) : bool :=
  match r with Ok _ => false | Raise _ => true end.

(** ** The command-line flags read by the modelled code *)

Module FLAGS.
Record t : Type := {
  train_dir : string;
  train_data_pattern : string;
  distillation_features : bool;
  distillation_type : Z;
  distillation_percent : Q;
  model : string;
  multitask : bool;
  start_new_model : bool;
  label_loss : string;
  batch_size : Z;
  max_steps : option Z;
  reweight : bool;
  optimizer : string;
  feature_transformer : string;
  data_augmenter : string;
  recall_at_n : Z
}.
End FLAGS.

(** ** Label reshaping and loss composition of [build_graph] *)

Module Graph.

Local Open Scope Q_scope.

(** A row holds one example, a batch is [batch_size] rows. *)
Definition Row : Type := list Q.
Definition Tensor : Type := list Row.

(** [tf.cast(labels_batch, dtype=tf.float32)] on the boolean indicators. *)
Definition cast_float32 (b : bool) : Q := if b then 1 else 0.

(** [tf.reduce_sum(_, axis=1, keep_dims=True)], one row at a time. *)
Definition reduce_sum (r : Row) : Q := fold_right Qplus 0 r.

(** [tf.clip_by_value(t, clip_value_min, clip_value_max)] on one entry. *)
Definition clip_by_value (t clip_value_min clip_value_max : Q) : Q :=
  Qmin (Qmax t clip_value_min) clip_value_max.

(** The constant [1e-6] of line 307. *)
Definition epsilon : Q := 1 # 1000000.

(** Element-wise combination of two rows of the same width.  The two
    operands of lines 308 are the labels and the distilled labels of one
    batch of the reader (line 295), both of the shape
    [[batch, num_classes]]; on operands of different shapes TensorFlow
    broadcasts or refuses to build the graph, which is not followed
    here: past the end of the shorter row the function below gives
    nothing, and what is stated of it is stated for rows of one
    width. *)
Fixpoint zip_rows (f : Q -> Q -> Q) (a b : Row) : Row :=
  match a, b with
  | x :: a', y :: b' => f x y :: zip_rows f a' b'
  | _, _ => []
  end.

(** Lines 305-309 on one example: the factor
    [sum_float_labels / sum_distill_labels * p] is a column of shape
    [[batch, 1]], broadcast along the classes of its row. *)
Definition reform_row (p : Q) (labels : list bool) (distill : Row) : Row :=
  let float_labels := map cast_float32 labels in
  let sum_float_labels := reduce_sum float_labels in
  let sum_distill_labels := reduce_sum distill + epsilon in
  let distill' :=
    zip_rows (fun l d => l + d * (sum_float_labels / sum_distill_labels * p))
             float_labels distill in
  map (fun x => clip_by_value x 0 1) distill'.

(** Lines 305-309 on the batch, row by row; the two batches have the
    same number of examples and rows of the same width, as above. *)
Fixpoint reform_labels (p : Q) (labels_batch : list (list bool))
    (distill_labels_batch : Tensor) : Tensor :=
  match labels_batch, distill_labels_batch with
  | l :: ls, d :: ds => reform_row p l d :: reform_labels p ls ds
  | _, _ => []
  end.

(** Lines 302-309: the distilled labels are rewritten only under
    [distillation_features] with [distillation_type == 2]. *)
Definition distill_labels (f : FLAGS.t) (labels_batch : list (list bool))
    (distill_labels_batch : Tensor) : Tensor :=
  if FLAGS.distillation_features f && (FLAGS.distillation_type f =? 2)%Z
  then reform_labels (FLAGS.distillation_percent f) labels_batch
         distill_labels_batch
  else distill_labels_batch.

(** The reading of the blend in the specification: the distilled row
    times one factor [k], added to the ground-truth row, every entry
    clipped into [[0,1]]. *)
Definition scale_add_clip (k : Q) (labels : list bool) (distill : Row) : Row :=
  map (fun x => clip_by_value x 0 1)
      (zip_rows (fun l d => l + d * k) (map cast_float32 labels) distill).

(** Pointwise comparison of rows and batches, up to the equality of
    fractions. *)
Definition row_eq (a b : Row) : Prop := Forall2 Qeq a b.
Definition tensor_eq (a b : Tensor) : Prop := Forall2 row_eq a b.

Fixpoint row_eqb (a b : Row) : bool :=
  match a, b with
  | [], [] => true
  | x :: a', y :: b' => Qeq_bool x y && row_eqb a' b'
  | _, _ => false
  end.

(** What a loss of [losses.py] is given as labels: the indicators read
    from the data, or a float tensor of distilled labels. *)
Inductive LabelTensor : Type :=
| BoolLabels (labels_batch : list (list bool))
| FloatLabels (distill_labels_batch : Tensor).

(** The loss object [label_loss_fn]: [calculate_loss] with the
    predictions alone, and with the support predictions of a multitask
    model as second argument. *)
Class LossFn : Type := {
  calculate_loss : Tensor -> LabelTensor -> option Row -> Q;
  calculate_loss_support : Tensor -> Tensor -> LabelTensor -> option Row -> Q
}.

(** The dictionary returned by [model.create_model]; an absent key is
    [None].  [predictions] is read unconditionally at line 358. *)
Record ModelResult : Type := {
  predictions : Tensor;
  loss : option Q;
  support_predictions : option Tensor;
  regularization_loss : option Q
}.

Section LabelLoss.
Context `{LossFn}.

(** Lines 359-399 once line 358 has read [predictions] and, under
    [reweight], [get_video_weights] has returned [video_weights]; both
    can raise, which [build_graph_label_loss] below follows.
    [labels_batch] is the batch the augmenter handed back at line 321
    and [distill_labels_batch] the value left by lines 302-309. *)
Definition label_loss (f : FLAGS.t) (res : ModelResult)
    (labels_batch : list (list bool)) (distill_labels_batch : Tensor)
    (video_weights : Row) : result Q :=
  match loss res with
  | Some l => Ok l
  | None =>
    let video_weights_batch :=
      if FLAGS.reweight f then Some video_weights else None in
    let p := FLAGS.distillation_percent f in
    if FLAGS.multitask f then
      match support_predictions res with
      | None => Raise (KeyError "support_predictions")
      | Some support =>
        let calc lbl :=
          calculate_loss_support (predictions res) support lbl
                                 video_weights_batch in
        if FLAGS.distillation_features f
           && (FLAGS.distillation_type f =? 1)%Z then
          if Qle_bool p 0 then Ok (calc (BoolLabels labels_batch))
          else if Qle_bool 1 p then
            Ok (calc (FloatLabels distill_labels_batch))
          else Ok (calc (BoolLabels labels_batch) * (1 - p)
                   + calc (FloatLabels distill_labels_batch) * p)
        else if FLAGS.distillation_features f
                && (FLAGS.distillation_type f =? 2)%Z then
          Ok (calc (FloatLabels distill_labels_batch))
        else Ok (calc (BoolLabels labels_batch))
      end
    else
      let calc lbl :=
        calculate_loss (predictions res) lbl video_weights_batch in
      if FLAGS.distillation_features f
         && (FLAGS.distillation_type f =? 1)%Z then
        if Qle_bool p 0 then Ok (calc (BoolLabels labels_batch))
        else if Qle_bool 1 p then
          Ok (calc (FloatLabels distill_labels_batch))
        else Ok (calc (BoolLabels labels_batch) * (1 - p)
                 + calc (FloatLabels distill_labels_batch) * p)
      else if FLAGS.distillation_features f
              && (FLAGS.distillation_type f =? 2)%Z then
        Ok (calc (FloatLabels distill_labels_batch))
      else Ok (calc (BoolLabels labels_batch))
  end.

(** The value of [label_loss] in the graph built for one batch: the
    reshaping of lines 302-309 first, then the augmenter's labels and
    the loss. *)
Definition graph_label_loss (f : FLAGS.t) (augment_labels :
    list (list bool) -> list (list bool)) (res : ModelResult)
    (labels_batch : list (list bool)) (distill_labels_batch : Tensor)
    (video_weights : Row) : result Q :=
  let distill_labels_batch :=
    distill_labels f labels_batch distill_labels_batch in
  let labels_batch := augment_labels labels_batch in
  label_loss f res labels_batch distill_labels_batch video_weights.

(** The dictionary [result] as [model.create_model] returns it: any of
    its keys may be absent. *)
Record ModelDict : Type := {
  dict_predictions : option Tensor;
  dict_loss : option Q;
  dict_support_predictions : option Tensor;
  dict_regularization_loss : option Q
}.

(** Lines 302-309, 321 and 358-399 from the dictionary.
    [result["predictions"]] raises [KeyError] when the key is absent.
    When the model gives no loss of its own and [reweight] is set,
    [get_video_weights] is called: it opens [FLAGS.sample_freq_file] and
    parses its lines, and what it raises leaves [build_graph]; its
    outcome is [get_video_weights].  The losses of [losses.py] are taken
    to return. *)
Definition build_graph_label_loss (f : FLAGS.t) (augment_labels :
    list (list bool) -> list (list bool)) (res : ModelDict)
    (labels_batch : list (list bool)) (distill_labels_batch : Tensor)
    (get_video_weights : result Row) : result Q :=
  let distill_labels_batch :=
    distill_labels f labels_batch distill_labels_batch in
  let labels_batch := augment_labels labels_batch in
  match dict_predictions res with
  | None => Raise (KeyError "predictions")
  | Some preds =>
    let res' := {|
      predictions := preds;
      loss := dict_loss res;
      support_predictions := dict_support_predictions res;
      regularization_loss := dict_regularization_loss res
    |} in
    match dict_loss res with
    | Some l => Ok l
    | None =>
      if FLAGS.reweight f then
        match get_video_weights with
        | Raise e => Raise e
        | Ok video_weights =>
          label_loss f res' labels_batch distill_labels_batch video_weights
        end
      else label_loss f res' labels_batch distill_labels_batch []
    end
  end.
End LabelLoss.

End Graph.

(** ** Lookup of classes by name *)

Module Registry.

(** What [getattr(module, name, None)] can find: a class, given with the
    names of the classes of its method resolution order (itself
    included), or any other attribute, of which only the truth value
    matters. *)
Inductive pyobj : Type :=
| PyClass (name : string) (mro : list string)
| PyOther (truth : bool).

(** A module is the dictionary of its attributes. *)
Definition module : Type := gmap string pyobj.

Definition getattr (m : module) (name : string) : option pyobj := m !! name.

(** Truth value of [getattr(module, name, None)]; [None] is false, a
    class is true. *)
Definition truthy (a : option pyobj) : bool :=
  match a with
  | Some (PyClass _ _) => true
  | Some (PyOther b) => b
  | None => false
  end.

(** [next(a for a in modules if a)]. *)
Fixpoint next_truthy (modules : list (option pyobj)) : result pyobj :=
  match modules with
  | [] => Raise StopIteration
  | a :: rest =>
    match a with
    | Some o => if truthy a then Ok o else next_truthy rest
    | None => next_truthy rest
    end
  end.

Definition find_class_by_name (name : string) (modules : list module)
    : result pyobj :=
  let modules := map (fun m => getattr m name) modules in
  next_truthy modules.

Definition issubclass (candidate : pyobj) (expected_superclass : string)
    : result bool :=
  match candidate with
  | PyClass _ mro => Ok (existsb (String.eqb expected_superclass) mro)
  | PyOther _ => Raise (TypeError "issubclass() arg 1 must be a class")
  end.

(** Lines 155 and 159 evaluate [flags.FlagsError]; [flags] is
    [tensorflow.flags] (line 31), which has no attribute of that name,
    so what is raised there is the [AttributeError] of the lookup, before
    the message is formatted. *)
Definition flags_FlagsError : exn :=
  AttributeError "'module' object has no attribute 'FlagsError'".

(** The [for] loop of [validate_class_name] over the candidates. *)
Fixpoint validate_candidates (flag_value category expected_superclass : string)
    (candidates : list (option pyobj)) : result bool :=
  match candidates with
  | [] => Raise flags_FlagsError
  | candidate :: rest =>
    match candidate with
    | Some c =>
      if negb (truthy candidate)
      then validate_candidates flag_value category expected_superclass rest
      else
        match issubclass c expected_superclass with
        | Raise e => Raise e
        | Ok false => Raise flags_FlagsError
        | Ok true => Ok true
        end
    | None => validate_candidates flag_value category expected_superclass rest
    end
  end.

Definition validate_class_name (flag_value category : string)
    (modules : list module) (expected_superclass : string) : result bool :=
  let candidates := map (fun m => getattr m flag_value) modules in
  validate_candidates flag_value category expected_superclass candidates.

(** Whether some module has a true attribute of that name. *)
Definition resolves (name : string) (modules : list module) : bool :=
  existsb truthy (map (fun m => getattr m name) modules).

(** The modules the training program searches. *)
Class Modules : Type := {
  frame_level_models : module;
  video_level_models : module;
  losses : module;
  tf_train : module;
  feature_transform : module;
  data_augmentation : module
}.



End Registry.

(** ** Cluster, task and the events of a run *)

Module TaskSpec.
Record t : Type := { type : string; index : Z }.
End TaskSpec.

(** [tf.train.ClusterSpec]: job name to the addresses of its tasks. *)
Definition ClusterSpec : Type := gmap string (list string).

Definition task_as_string (task : TaskSpec.t) : string :=
  "/job:" +:+ TaskSpec.type task +:+ "/task:" +:+ pretty (TaskSpec.index task).

Inductive level : Type := INFO | ERROR.

Inductive metric : Type := HitAtOne | PERR | GAP | RecallAtN.

(** What a process does to the world around it, in order. *)
Inductive event : Type :=
| Logging (lv : level) (msg : string)
| DeleteRecursivelyCall (dirname : string)
| ServerStart (job_name : string) (task_index : Z)
| ServerJoin
| SaverRestore (checkpoint : string)
| SessionRun (steps : nat)
| EvalUtil (m : metric)
| AddSummary (tag : string) (value : Q) (global_step : Z)
| SummaryFlush
| SupervisorStop.

(** The values one [sess.run([train_op, global_step, loss, predictions,
    labels])] returns. *)
Record StepValues : Type := {
  global_step_val : Z;
  loss_val : Q;
  predictions_val : Graph.Tensor;
  labels_val : Graph.Tensor
}.

(** The collaborators of the training program.  [FS] is the state of the
    file system as the program's own calls see and change it: the files
    [gfile.Glob] matches, the training directory [DeleteRecursively]
    removes and the checkpoint [tf.train.latest_checkpoint] finds in it
    before the session starts.  What TensorFlow's supervisor, saver and
    summary writer write under the training directory once the session
    runs is theirs and is not followed: the state a computation returns
    says nothing about the disk after the loop.  [DeleteRecursively]
    gives the state it leaves and the exception it raised, if any.  [session_run n] is the outcome of the
    [n]-th session run of the loop and [should_stop n] the answer of
    [sv.should_stop()] after [n] of them; [seconds_per_batch n] is the
    time the clock measured around the [n]-th.  [instantiate] is the call
    of a looked-up object, [construct_graph] the part of [build_graph]
    from line 330 on, [Server] the start of [tf.train.Server], which
    gives the target of the session. *)
Class Runtime : Type := {
  FS : Type;
  DeleteRecursively : FS -> string -> FS * option exn;
  Glob : FS -> string -> list string;
  latest_checkpoint : FS -> string -> option string;
  restore : FS -> string -> option exn;
  Server : ClusterSpec -> TaskSpec.t -> result string;
  instantiate : Registry.pyobj -> option exn;
  construct_graph : option exn;
  assign_weights : option exn;
  should_stop : nat -> bool;
  session_run : nat -> result StepValues;
  seconds_per_batch : nat -> Q;
  calculate_hit_at_one : Graph.Tensor -> Graph.Tensor -> Q;
  calculate_precision_at_equal_recall_rate : Graph.Tensor -> Graph.Tensor -> Q;
  calculate_gap : Graph.Tensor -> Graph.Tensor -> Q;
  calculate_recall_at_n : Graph.Tensor -> Graph.Tensor -> Z -> Q;
  format_2f : Q -> string;
  str_float : Q -> string;
  str_cluster : ClusterSpec -> string;
  tf_version : string
}.

(** ** Computations with file-system state, events and exceptions *)

Section Monad.
Context `{Runtime}.

Definition M (A : Type) : Type := FS -> result A * FS * list event.

Definition ret {A : Type} (a : A) : M A := fun s => (Ok a, s, []).

Definition raise {A : Type} (e : exn) : M A := fun s => (Raise e, s, []).

Definition bind {A B : Type} (c : M A) (k : A -> M B) : M B :=
  fun s =>
    match c s with
    | (Ok a, s1, t1) =>
      match k a s1 with (r, s2, t2) => (r, s2, t1 ++ t2) end
    | (Raise e, s1, t1) => (Raise e, s1, t1)
    end.

(** [try: c except: handler] with a bare [except]. *)
Definition try_except {A : Type} (c : M A) (handler : M A) : M A :=
  fun s =>
    match c s with
    | (Ok a, s1, t1) => (Ok a, s1, t1)
    | (Raise _, s1, t1) =>
      match handler s1 with (r, s2, t2) => (r, s2, t1 ++ t2) end
    end.

Definition emit (e : event) : M unit := fun s => (Ok tt, s, [e]).

Definition lift {A : Type} (r : result A) : M A := fun s => (r, s, []).

(** A call into a collaborator that returns nothing or raises. *)
Definition attempt (o : option exn) : M unit :=
  match o with Some e => raise e | None => ret tt end.

Definition logging_info (msg : string) : M unit := emit (Logging INFO msg).
Definition logging_error (msg : string) : M unit := emit (Logging ERROR msg).

(** The parts of what a computation gives back. *)
Definition events {X : Type} (x : X * list event) : list event := snd x.
Definition outcome {R S : Type} (x : R * S * list event) : R := fst (fst x).
Definition state {R S : Type} (x : R * S * list event) : S := snd (fst x).

(** [sat P Q c]: from every state, each event of [c] is of kind [P],
    and a value [c] returns satisfies [Q]. *)
Definition sat {A : Type} (P : event -> bool) (Q : A -> Prop) (c : M A)
    : Prop :=
  forall s, forallb P (events (c s)) = true
            /\ (forall a, outcome (c s) = Ok a -> Q a).
End Monad.

(** [x ← c; k] and [c;; k] are stdpp's notations for [bind]. *)
#[export] Instance M_ret `{Runtime} : MRet M := @ret _.
#[export] Instance M_bind `{Runtime} : MBind M := fun A B k c => bind c k.

(** ** The trainer *)

(** Truth value of a cluster: [None] and the empty [ClusterSpec] are
    false. *)
Definition cluster_truthy (cluster : option ClusterSpec) : bool :=
  match cluster with
  | Some c => negb (bool_decide (c = ∅))
  | None => false
  end.

Section Servers.
Context `{Runtime}.

(** [start_server]; the index of a [TaskSpec.t] is an integer, so the
    test [task.index is None] of line 723 is never taken. *)
Definition start_server (cluster : ClusterSpec) (task : TaskSpec.t)
    : M string :=
  if String.eqb (TaskSpec.type task) ""
  then raise (ValueError (task_as_string task
                          +:+ ": The task type must be specified."))
  else
    emit (ServerStart (TaskSpec.type task) (TaskSpec.index task));;
    lift (Server cluster task).
End Servers.

Module Trainer.

Record t : Type := {
  cluster : option ClusterSpec;
  task : TaskSpec.t;
  is_master : bool;
  train_dir : string
}.

(** [Trainer.__init__], lines 463-471. *)
Definition init (cluster : option ClusterSpec) (task : TaskSpec.t)
    (train_dir : string) : result t :=
  let self := {|
    cluster := cluster;
    task := task;
    is_master := String.eqb (TaskSpec.type task) "master"
                 && (TaskSpec.index task =? 0);
    train_dir := train_dir
  |} in
  if is_master self && (TaskSpec.index (Trainer.task self) >? 0)
  then Raise (StandardError "%s: Only one replica of master expected")
  else Ok self.

Section Methods.
Context `{Runtime} `{Registry.Modules}.
Variable f : FLAGS.t.

Definition start_server_if_distributed (self : t) : M (string * string) :=
  if cluster_truthy (cluster self) then
    logging_info (task_as_string (task self)
                  +:+ ": Starting trainer within cluster "
                  +:+ str_cluster (default ∅ (cluster self)) +:+ ".");;
    target ← start_server (default ∅ (cluster self)) (task self);
    mret (target, "replica_device_setter")
  else mret ("", "").

Definition delete_recursively (dirname : string) : M unit :=
  fun s =>
    match DeleteRecursively s dirname with
    | (s', Some e) => (Raise e, s', [DeleteRecursivelyCall dirname])
    | (s', None) => (Ok tt, s', [DeleteRecursivelyCall dirname])
    end.

Definition remove_training_directory (self : t) (train_dir : string)
    : M unit :=
  try_except
    (logging_info (task_as_string (task self)
                   +:+ ": Removing existing train directory.");;
     delete_recursively train_dir)
    (logging_error (task_as_string (task self)
                    +:+ ": Failed to delete directory " +:+ train_dir
                    +:+ " when starting a new model. Please delete it manually and"
                    +:+ " try again.")).

Definition get_latest_checkpoint (self : t) (start_new_model : bool)
    (train_dir : string) : M (option string) :=
  if start_new_model then
    logging_info (task_as_string (task self)
      +:+ ": Flag 'start_new_model' is set. Building a new model.");;
    mret None
  else
    latest_checkpoint ← (fun s => (Ok (latest_checkpoint s train_dir), s, []));
    match latest_checkpoint with
    | Some c =>
      if String.eqb c "" then
        logging_info (task_as_string (task self)
          +:+ ": No checkpoint file found. Building a new model.");;
        mret None
      else mret (Some c)
    | None =>
      logging_info (task_as_string (task self)
        +:+ ": No checkpoint file found. Building a new model.");;
      mret None
    end.

(** [get_input_data_tensors] up to the list of files, lines 184-190;
    the queues built from the files are TensorFlow's. *)
Definition get_input_data_tensors (data_pattern : string) (batch_size : Z)
    : M (list string) :=
  logging_info ("Using batch size of " +:+ pretty batch_size
                +:+ " for training.");;
  files ← (fun s => (Ok (Glob s data_pattern), s, []));
  match files with
  | [] => raise (IOError ("Unable to find training files. data_pattern='"
                          +:+ data_pattern +:+ "'."))
  | _ :: _ =>
    logging_info ("Number of training files: "
                  +:+ pretty (length files) +:+ ".");;
    mret files
  end.

(** The control flow of [build_graph]: the optimizer is made at line
    293, the input is read at lines 294-317 in both branches, the
    augmenter and the transformer are made at lines 320 and 325, and
    the model, the loss and the gradients follow. *)
Definition build_graph (optimizer_class transformer_class augmenter_class
    : Registry.pyobj) (train_data_pattern : string) (batch_size : Z)
    : M unit :=
  attempt (instantiate optimizer_class);;
  get_input_data_tensors train_data_pattern batch_size;;
  attempt (instantiate augmenter_class);;
  attempt (instantiate transformer_class);;
  attempt construct_graph.

(** [build_model], from line 658 on; the readers of lines 640-656 are
    built by [readers] and [utils]. *)
Definition build_model (self : t) : M unit :=
  model ← lift (Registry.find_class_by_name (FLAGS.model f)
             [Registry.frame_level_models; Registry.video_level_models]);
  attempt (instantiate model);;
  label_loss_fn ← lift (Registry.find_class_by_name (FLAGS.label_loss f)
                     [Registry.losses]);
  attempt (instantiate label_loss_fn);;
  optimizer_class ← lift (Registry.find_class_by_name (FLAGS.optimizer f)
                       [Registry.tf_train]);
  transformer_class ← lift (Registry.find_class_by_name
                         (FLAGS.feature_transformer f)
                         [Registry.feature_transform]);
  augmenter_class ← lift (Registry.find_class_by_name
                       (FLAGS.data_augmenter f)
                       [Registry.data_augmentation]);
  build_graph optimizer_class transformer_class augmenter_class
    (FLAGS.train_data_pattern f) (FLAGS.batch_size f);;
  logging_info (task_as_string (task self) +:+ ": Built graph.").

(** The message of the [logging.info] of lines 561-566. *)
Definition training_step_message (self : t) (global_step_val : Z)
    (hit_at_one perr gap : Q) (recall : string) (loss_val : Q) : string :=
  task_as_string (task self) +:+ ": training step "
  +:+ pretty global_step_val +:+ "| Hit@1: " +:+ format_2f hit_at_one
  +:+ " PERR: " +:+ format_2f perr +:+ " GAP: " +:+ format_2f gap
  +:+ " Recall@" +:+ pretty (FLAGS.recall_at_n f) +:+ ": "
  +:+ recall +:+ " Loss: " +:+ str_float loss_val.

(** Lines 547-578, the body of [if self.is_master:].  Line 547 divides
    the integer [labels_val.shape[0]] by the float [seconds_per_batch]
    and raises [ZeroDivisionError] when that is zero, before any metric
    is computed.  The metrics of [eval_util] and the summary writer are
    taken to return. *)
Definition report (self : t) (v : StepValues) (seconds_per_batch : Q)
    : result unit * list event :=
  if Qeq_bool seconds_per_batch 0
  then (Raise (ZeroDivisionError "float division by zero"), [])
  else
  let examples_per_second :=
    (inject_Z (Z.of_nat (length (labels_val v))) / seconds_per_batch)%Q in
  let hit_at_one :=
    calculate_hit_at_one (predictions_val v) (labels_val v) in
  let perr :=
    calculate_precision_at_equal_recall_rate (predictions_val v)
      (labels_val v) in
  let recall := "N/A" in
  let '(recall, recall_events) :=
    if false then
      let recall :=
        calculate_recall_at_n (predictions_val v) (labels_val v)
          (FLAGS.recall_at_n f) in
      (format_2f recall,
       [EvalUtil RecallAtN;
        AddSummary ("model/Training_Recall@" +:+ pretty (FLAGS.recall_at_n f))
          recall (global_step_val v)])
    else (recall, []) in
  let gap := calculate_gap (predictions_val v) (labels_val v) in
  (Ok tt,
   [EvalUtil HitAtOne; EvalUtil PERR] ++ recall_events ++
   [EvalUtil GAP;
    Logging INFO (training_step_message self (global_step_val v) hit_at_one
                    perr gap recall (loss_val v));
    AddSummary "model/Training_Hit@1" hit_at_one (global_step_val v);
    AddSummary "model/Training_Perr" perr (global_step_val v);
    AddSummary "model/Training_GAP" gap (global_step_val v);
    AddSummary "global_step/Examples/Second" examples_per_second
      (global_step_val v);
    SummaryFlush]).

(** The test of line 580. *)
Definition max_steps_exceeded (steps : nat) : bool :=
  match FLAGS.max_steps f with
  | Some m => Z.of_nat steps >? m
  | None => false
  end.

(** One pass of the loop body once [sess.run] has returned [v], lines
    542-578: what it emits, and the exception the report of the master
    raised, if any. *)
Definition iteration (self : t) (steps : nat) (v : StepValues)
    : result unit * list event :=
  if is_master self then
    match report self v (seconds_per_batch steps) with
    | (r, t) => (r, SessionRun steps :: t)
    end
  else (Ok tt, [SessionRun steps]).

(** The passes [from+1 .. from+k] of the loop run to their end and go
    on: the supervisor does not ask to stop, the session run returns,
    the report of the master does not raise, and the step limit is not
    exceeded. *)
Definition plain_passes (self : t) (from k : nat) : Prop :=
  forall i, (from <= i < from + k)%nat ->
    should_stop i = false /\
    (exists v, session_run (S i) = Ok v
               /\ fst (iteration self (S i) v) = Ok tt) /\
    max_steps_exceeded (S i) = false.

(** The [while] loop of lines 532-583, [steps] session runs done.  The
    result is [None] while the loop is still running when [fuel]
    iterations have been followed; the events are those emitted so
    far.  An exception of the session run or of the report leaves the
    loop. *)
Fixpoint training_loop (fuel : nat) (self : t) (steps : nat)
    : option (result unit) * list event :=
  match fuel with
  | O => (None, [])
  | S fuel' =>
    if should_stop steps then (Some (Ok tt), [])
    else
      let steps := S steps in
      match session_run steps with
      | Raise e => (Some (Raise e), [SessionRun steps])
      | Ok v =>
        match iteration self steps v with
        | (Raise e, here) => (Some (Raise e), here)
        | (Ok _, here) =>
          if max_steps_exceeded steps then
            (Some (Ok tt),
             here ++ [Logging INFO (task_as_string (task self)
                        +:+ ": Done training -- max_steps limit reached.")])
          else
            match training_loop fuel' self steps with
            | (r, rest) => (r, here ++ rest)
            end
        end
      end
  end.

Definition saver_restore (checkpoint : string) : M unit :=
  fun s =>
    match restore s checkpoint with
    | Some e => (Raise e, s, [SaverRestore checkpoint])
    | None => (Ok tt, s, [SaverRestore checkpoint])
    end.

(** Lines 479-484 of [run]: the training directory is removed on
    request, the server is started, and the checkpoint to resume from
    is chosen. *)
Definition resume (self : t) (start_new_model : bool) : M (option string) :=
  (if is_master self && start_new_model
   then remove_training_directory self (train_dir self)
   else mret tt);;
  start_server_if_distributed self;;
  get_latest_checkpoint self start_new_model (train_dir self).

(** [run] before the loop, lines 479-527. *)
Definition startup (self : t) (start_new_model : bool) : M unit :=
  checkpoint ← resume self start_new_model;
  build_model self;;
  logging_info (task_as_string (task self)
                +:+ ": Starting managed session.");;
  match checkpoint with
  | Some c => saver_restore c
  | None => mret tt
  end;;
  if FLAGS.reweight f then attempt assign_weights else mret tt.

(** [Trainer.run]: the start, the loop inside [try], the handler of
    [tf.errors.OutOfRangeError] and the lines after it.  The state
    returned is the one the start left: the checkpoints and summaries
    the supervisor writes during the loop are not part of [FS]. *)
Definition run (fuel : nat) (self : t) (start_new_model : bool) (s : FS)
    : option (result unit) * FS * list event :=
  match startup self start_new_model s with
  | (Raise e, s1, t1) => (Some (Raise e), s1, t1)
  | (Ok _, s1, t1) =>
    let entering :=
      Logging INFO (task_as_string (task self)
                    +:+ ": Entering training loop.") in
    let exited :=
      [Logging INFO (task_as_string (task self)
                     +:+ ": Exited training loop.");
       SupervisorStop] in
    match training_loop fuel self 0 with
    | (None, t2) => (None, s1, t1 ++ entering :: t2)
    | (Some (Ok _), t2) => (Some (Ok tt), s1, t1 ++ entering :: t2 ++ exited)
    | (Some (Raise OutOfRangeError), t2) =>
      (Some (Ok tt), s1,
       t1 ++ entering :: t2
       ++ Logging INFO (task_as_string (task self)
                        +:+ ": Done training -- epoch limit reached.")
          :: exited)
    | (Some (Raise e), t2) => (Some (Raise e), s1, t1 ++ entering :: t2)
    end
  end.
End Methods.

Arguments report : simpl never.
Arguments iteration : simpl never.

End Trainer.

(** ** The parameter server and the dispatch of [main] *)

Module ParameterServer.

Record t : Type := {
  cluster : option ClusterSpec;
  task : TaskSpec.t
}.

Definition init (cluster : option ClusterSpec) (task : TaskSpec.t) : t :=
  {| cluster := cluster; task := task |}.

Section Methods.
Context `{Runtime}.

(** [ParameterServer.run] up to [server.join()], which does not
    return. *)
Definition run (self : t) : M unit :=
  match cluster self with
  | None => raise (AttributeError "'NoneType' object has no attribute 'as_dict'")
  | Some c =>
    logging_info (task_as_string (task self)
                  +:+ ": Starting parameter server within cluster "
                  +:+ str_cluster c +:+ ".");;
    start_server c (task self);;
    emit ServerJoin
  end.
End Methods.

End ParameterServer.

(** The content of [TF_CONFIG] once parsed; an absent or empty entry is
    [None]. *)
Record Environ : Type := {
  cluster_data : option ClusterSpec;
  task_data : option TaskSpec.t
}.

Definition default_task : TaskSpec.t :=
  {| TaskSpec.type := "master"; TaskSpec.index := 0 |}.

(** Lines 742-747. *)
Definition load_cluster (env : Environ) : option ClusterSpec :=
  if cluster_truthy (cluster_data env) then cluster_data env else None.

Definition load_task (env : Environ) : TaskSpec.t :=
  default default_task (task_data env).

(** The object [main] builds at lines 755-762, before it is run. *)
Inductive role : Type :=
| TrainerRole (trainer : Trainer.t)
| ParameterServerRole (server : ParameterServer.t).

Definition dispatch (f : FLAGS.t) (cluster : option ClusterSpec)
    (task : TaskSpec.t) : result role :=
  if negb (cluster_truthy cluster)
     || String.eqb (TaskSpec.type task) "master"
     || String.eqb (TaskSpec.type task) "worker"
  then
    match Trainer.init cluster task (FLAGS.train_dir f) with
    | Ok trainer => Ok (TrainerRole trainer)
    | Raise e => Raise e
    end
  else if String.eqb (TaskSpec.type task) "ps"
  then Ok (ParameterServerRole (ParameterServer.init cluster task))
  else Raise (ValueError (task_as_string task +:+ ": Invalid task_type: "
                          +:+ TaskSpec.type task +:+ ".")).

Section Main.
Context `{Runtime} `{Registry.Modules}.

(** [main]: the result is [None] when the process is still running
    after [fuel] iterations of the training loop, and for a parameter
    server, which serves until it is killed. *)
Definition main (fuel : nat) (f : FLAGS.t) (env : Environ) (s : FS)
    : option (result unit) * FS * list event :=
  let cluster := load_cluster env in
  let task := load_task env in
  let version :=
    Logging INFO (task_as_string task +:+ ": Tensorflow version: "
                  +:+ tf_version +:+ ".") in
  match dispatch f cluster task with
  | Raise e => (Some (Raise e), s, [version])
  | Ok (TrainerRole trainer) =>
    match Trainer.run f fuel trainer (FLAGS.start_new_model f) s with
    | (r, s', t) => (r, s', version :: t)
    end
  | Ok (ParameterServerRole server) =>
    match ParameterServer.run server s with
    | (Raise e, s', t) => (Some (Raise e), s', version :: t)
    | (Ok _, s', t) => (None, s', version :: t)
    end
  end.
End Main.

(** ** Kinds of events *)

Definition is_session_run (e : event) : bool :=
  match e with SessionRun _ => true | _ => false end.

(** The number of session runs among some events. *)
Definition session_runs (t : list event) : nat :=
  length (List.filter is_session_run t).


(** A computation of a metric by [eval_util], or a write to the summary
    writer. *)
Definition is_report (e : event) : bool :=
  match e with
  | EvalUtil _ | AddSummary _ _ _ | SummaryFlush => true
  | _ => false
  end.

(** The computation of recall at N, or a summary under its tag. *)
Definition is_recall (e : event) : bool :=
  match e with
  | EvalUtil RecallAtN => true
  | AddSummary tag _ _ =>
    bool_decide (String.prefix "model/Training_Recall@" tag = true)
  | _ => false
  end.

(** The tags under which the loop writes summaries. *)
Definition training_tags : list string :=
  ["model/Training_Hit@1"; "model/Training_Perr"; "model/Training_GAP";
   "global_step/Examples/Second"].

(** The events [run] can emit before the loop: no checkpoint is restored
    when a new model is started. *)
Definition startup_event (start_new_model : bool) (e : event) : bool :=
  match e with
  | Logging _ _ | DeleteRecursivelyCall _ | ServerStart _ _ => true
  | SaverRestore _ => negb start_new_model
  | _ => false
  end.

(** The events the loop can emit: the metrics and the summaries are the
    master's. *)
Definition loop_event (is_master : bool) (e : event) : bool :=
  match e with
  | SessionRun _ | Logging INFO _ => true
  | EvalUtil RecallAtN => false
  | EvalUtil _ | SummaryFlush => is_master
  | AddSummary tag _ _ =>
    is_master && bool_decide (tag ∈ training_tags)
  | _ => false
  end.

Definition run_event (start_new_model is_master : bool) (e : event) : bool :=
  startup_event start_new_model e || loop_event is_master e
  || match e with SupervisorStop => true | _ => false end.

(** ** Concrete inputs used by the examples below *)

Module Examples.
Import Graph.

Definition flags_of (pattern model : string) (start_new : bool)
    (limit : option Z) (type : Z) (percent : Q) (mt : bool) : FLAGS.t := {|
  FLAGS.train_dir := "/tmp/yt8m_model/";
  FLAGS.train_data_pattern := pattern;
  FLAGS.distillation_features := (0 <? type)%Z;
  FLAGS.distillation_type := type;
  FLAGS.distillation_percent := percent;
  FLAGS.model := model;
  FLAGS.multitask := mt;
  FLAGS.start_new_model := start_new;
  FLAGS.label_loss := "CrossEntropyLoss";
  FLAGS.batch_size := 1024;
  FLAGS.max_steps := limit;
  FLAGS.reweight := false;
  FLAGS.optimizer := "AdamOptimizer";
  FLAGS.feature_transformer := "DefaultTransformer";
  FLAGS.data_augmenter := "DefaultAugmenter";
  FLAGS.recall_at_n := 100
|}.

Definition base_flags : FLAGS.t :=
  flags_of "train.tfrecord" "LogisticModel" false None 0 0 false.

Definition distill_flags (type : Z) (percent : Q) (mt : bool) : FLAGS.t :=
  flags_of "train.tfrecord" "LogisticModel" false None type percent mt.

Definition blend_flags : FLAGS.t := distill_flags 2 (1 # 2) false.

(** The flags of a run with [--reweight]. *)
Definition reweight_flags : FLAGS.t := {|
  FLAGS.train_dir := "/tmp/yt8m_model/";
  FLAGS.train_data_pattern := "train.tfrecord";
  FLAGS.distillation_features := false;
  FLAGS.distillation_type := 0;
  FLAGS.distillation_percent := 0;
  FLAGS.model := "LogisticModel";
  FLAGS.multitask := false;
  FLAGS.start_new_model := false;
  FLAGS.label_loss := "CrossEntropyLoss";
  FLAGS.batch_size := 1024;
  FLAGS.max_steps := None;
  FLAGS.reweight := true;
  FLAGS.optimizer := "AdamOptimizer";
  FLAGS.feature_transformer := "DefaultTransformer";
  FLAGS.data_augmenter := "DefaultAugmenter";
  FLAGS.recall_at_n := 100
|}.

(** A cluster that lists two master tasks, a worker and a parameter
    server. *)
Definition two_masters : ClusterSpec :=
  <["master" := ["host0:2222"; "host1:2222"]]>
    (<["worker" := ["host2:2222"]]> (<["ps" := ["host3:2222"]]> ∅)).

(** A loss that adds up the labels it is given. *)
Definition label_mass (lbl : LabelTensor) : Q :=
  match lbl with
  | BoolLabels L => reduce_sum (map (fun l => reduce_sum (map cast_float32 l)) L)
  | FloatLabels D => reduce_sum (map reduce_sum D)
  end.

Definition mass_loss : LossFn := {|
  calculate_loss := fun _ lbl _ => label_mass lbl;
  calculate_loss_support := fun _ _ lbl _ => (2 * label_mass lbl)%Q
|}.

Definition plain_result : ModelResult := {|
  predictions := [[1 # 2]];
  loss := None;
  support_predictions := Some [[1 # 3]];
  regularization_loss := None
|}.

(** A model that returns a loss of its own under the key ["loss"]. *)
Definition own_loss_result : ModelResult := {|
  predictions := [[1 # 2]];
  loss := Some (7 # 1);
  support_predictions := None;
  regularization_loss := None
|}.

Definition step_values (n : nat) : StepValues := {|
  global_step_val := Z.of_nat n;
  loss_val := 1 # 2;
  predictions_val := [[9 # 10; 1 # 10]];
  labels_val := [[1%Q; 0%Q]]
|}.

(** A runtime whose file system is the list of the paths that exist,
    whose data run out after [batches] session runs, and where
    everything else succeeds. *)
Definition runtime (batches : nat) : Runtime := {|
  FS := list string;
  DeleteRecursively := fun fs dirname =>
    if bool_decide (dirname ∈ fs)
    then (List.filter (fun x => negb (String.eqb x dirname)) fs, None)
    else (fs, Some (RuntimeFailure "NotFoundError"));
  Glob := fun fs pattern => List.filter (String.eqb pattern) fs;
  latest_checkpoint := fun fs dirname =>
    if bool_decide (dirname ∈ fs) then Some (dirname +:+ "model.ckpt-10")
    else None;
  restore := fun _ _ => None;
  Server := fun _ _ => Ok "grpc://localhost:2222";
  instantiate := fun _ => None;
  construct_graph := None;
  assign_weights := None;
  should_stop := fun _ => false;
  session_run := fun n =>
    if (n <=? batches)%nat then Ok (step_values n)
    else Raise OutOfRangeError;
  seconds_per_batch := fun _ => 1 # 4;
  calculate_hit_at_one := fun _ _ => 1%Q;
  calculate_precision_at_equal_recall_rate := fun _ _ => 1%Q;
  calculate_gap := fun _ _ => 1%Q;
  calculate_recall_at_n := fun _ _ _ => 1%Q;
  format_2f := fun _ => "1.00";
  str_float := fun _ => "0.5";
  str_cluster := fun _ => "{}";
  tf_version := "1.0.0"
|}.

Definition class_of (name base : string) : Registry.pyobj :=
  Registry.PyClass name [name; base; "object"].

(** The modules, with a class [Duck] among the video-level models that
    is not a [BaseModel]. *)
Definition modules : Registry.Modules := {|
  Registry.frame_level_models :=
    {["LstmModel" := class_of "LstmModel" "BaseModel"]};
  Registry.video_level_models :=
    <["LogisticModel" := class_of "LogisticModel" "BaseModel"]>
      {["Duck" := Registry.PyClass "Duck" ["Duck"; "object"]]};
  Registry.losses :=
    {["CrossEntropyLoss" := class_of "CrossEntropyLoss" "BaseLoss"]};
  Registry.tf_train :=
    {["AdamOptimizer" := class_of "AdamOptimizer" "Optimizer"]};
  Registry.feature_transform :=
    {["DefaultTransformer" := class_of "DefaultTransformer" "object"]};
  Registry.data_augmentation :=
    {["DefaultAugmenter" := class_of "DefaultAugmenter" "object"]}
|}.

Definition master : Trainer.t := {|
  Trainer.cluster := None;
  Trainer.task := default_task;
  Trainer.is_master := true;
  Trainer.train_dir := "/tmp/yt8m_model/"
|}.

Definition worker : Trainer.t := {|
  Trainer.cluster := Some two_masters;
  Trainer.task := {| TaskSpec.type := "worker"; TaskSpec.index := 0 |};
  Trainer.is_master := false;
  Trainer.train_dir := "/tmp/yt8m_model/"
|}.
End Examples.

(** ** The rest of the loss of [build_graph] *)

Module Loss.
Import Graph.

(** [tf.add_n] on the collected regularization losses. *)
Definition add_n (reg_losses : list Q) : Q := fold_right Qplus 0%Q reg_losses.

(** Lines 404-428: the regularization loss of the model, or the constant
    zero without the key; the losses of
    [tf.losses.get_regularization_losses()] are added when the list is
    not empty; the penalty is the argument [regularization_penalty] of
    [build_graph]. *)
Definition final_loss (regularization_penalty : Q) (res : ModelResult)
    (reg_losses : list Q) (label_loss : Q) : Q :=
  let reg_loss :=
    match regularization_loss res with
    | Some r => r
    | None => 0%Q
    end in
  let reg_loss :=
    match reg_losses with
    | [] => reg_loss
    | _ :: _ => (reg_loss + add_n reg_losses)%Q
    end in
  (regularization_penalty * reg_loss + label_loss)%Q.


End Loss.

(** ** Further notions for the properties of [run] *)

(** The indices of the session runs among some events, in order. *)
Definition session_indices (t : list event) : list nat :=
  flat_map (fun e => match e with SessionRun n => [n] | _ => [] end) t.

(** The events that close a run: a line of the log, the stop of the
    supervisor. *)
Definition is_closing (e : event) : bool :=
  match e with
  | Logging INFO _ | SupervisorStop => true
  | _ => false
  end.

Section Frames.
Context `{Runtime}.

(** [moves s0 s1 P Q c]: run from the state [s0], [c] leaves the file
    system in [s1], emits events of kind [P] only, and a value it returns
    satisfies [Q]. *)
Definition moves {A : Type} (s0 s1 : FS) (P : event -> Prop) (Q : A -> Prop)
    (c : M A) : Prop :=
  state (c s0) = s1 /\ Forall P (events (c s0))
  /\ (forall a, outcome (c s0) = Ok a -> Q a).

(** The state of the file system once [run] has taken its resume
    decision: only the master that starts a new model has deleted its
    training directory. *)
Definition fs_after_resume (self : Trainer.t) (start_new_model : bool)
    (s : FS) : FS :=
  if Trainer.is_master self && start_new_model
  then fst (DeleteRecursively s (Trainer.train_dir self))
  else s.

(** What [run] may emit before the loop, and when: the deletion is the
    master's, of its own training directory, when a new model is started;
    a server is started within a cluster only, for the task of the
    trainer; the checkpoint restored is the latest one of the training
    directory, when no new model is started. *)
Definition startup_discipline (self : Trainer.t) (start_new_model : bool)
    (s : FS) (e : event) : Prop :=
  match e with
  | Logging _ _ => True
  | DeleteRecursivelyCall d =>
    Trainer.is_master self = true /\ start_new_model = true
    /\ d = Trainer.train_dir self
  | ServerStart job_name task_index =>
    cluster_truthy (Trainer.cluster self) = true
    /\ job_name = TaskSpec.type (Trainer.task self)
    /\ task_index = TaskSpec.index (Trainer.task self)
  | SaverRestore c =>
    start_new_model = false
    /\ latest_checkpoint (fs_after_resume self start_new_model s)
         (Trainer.train_dir self) = Some c
    /\ c <> ""
  | _ => False
  end.
End Frames.

(** The runtime of the examples with a supervisor that asks to stop
    after [stop_at] passes. *)
Definition stopping_runtime (stop_at : nat) : Runtime := {|
  FS := @FS (Examples.runtime 5);
  DeleteRecursively := @DeleteRecursively (Examples.runtime 5);
  Glob := @Glob (Examples.runtime 5);
  latest_checkpoint := @latest_checkpoint (Examples.runtime 5);
  restore := @restore (Examples.runtime 5);
  Server := @Server (Examples.runtime 5);
  instantiate := @instantiate (Examples.runtime 5);
  construct_graph := @construct_graph (Examples.runtime 5);
  assign_weights := @assign_weights (Examples.runtime 5);
  should_stop := fun n => (stop_at <=? n)%nat;
  session_run := @session_run (Examples.runtime 5);
  seconds_per_batch := @seconds_per_batch (Examples.runtime 5);
  calculate_hit_at_one := @calculate_hit_at_one (Examples.runtime 5);
  calculate_precision_at_equal_recall_rate :=
    @calculate_precision_at_equal_recall_rate (Examples.runtime 5);
  calculate_gap := @calculate_gap (Examples.runtime 5);
  calculate_recall_at_n := @calculate_recall_at_n (Examples.runtime 5);
  format_2f := @format_2f (Examples.runtime 5);
  str_float := @str_float (Examples.runtime 5);
  str_cluster := @str_cluster (Examples.runtime 5);
  tf_version := @tf_version (Examples.runtime 5)
|}.

(** The runtime of the examples on a machine whose clock reads the same
    before and after a session run, so that [seconds_per_batch] of
    line 534 is [0.0]. *)
Definition zero_clock_runtime : Runtime := {|
  FS := @FS (Examples.runtime 5);
  DeleteRecursively := @DeleteRecursively (Examples.runtime 5);
  Glob := @Glob (Examples.runtime 5);
  latest_checkpoint := @latest_checkpoint (Examples.runtime 5);
  restore := @restore (Examples.runtime 5);
  Server := @Server (Examples.runtime 5);
  instantiate := @instantiate (Examples.runtime 5);
  construct_graph := @construct_graph (Examples.runtime 5);
  assign_weights := @assign_weights (Examples.runtime 5);
  should_stop := @should_stop (Examples.runtime 5);
  session_run := @session_run (Examples.runtime 5);
  seconds_per_batch := fun _ => 0%Q;
  calculate_hit_at_one := @calculate_hit_at_one (Examples.runtime 5);
  calculate_precision_at_equal_recall_rate :=
    @calculate_precision_at_equal_recall_rate (Examples.runtime 5);
  calculate_gap := @calculate_gap (Examples.runtime 5);
  calculate_recall_at_n := @calculate_recall_at_n (Examples.runtime 5);
  format_2f := @format_2f (Examples.runtime 5);
  str_float := @str_float (Examples.runtime 5);
  str_cluster := @str_cluster (Examples.runtime 5);
  tf_version := @tf_version (Examples.runtime 5)
|}.

(** * Properties *)

Section GraphFacts.
Import Graph.
Local Open Scope Q_scope.

Lemma row_eqb_complete (a b : Row) : row_eq a b -> row_eqb a b = true.
Proof.
  induction 1 as [|x y a b Hxy _ IH]; simpl; [reflexivity|].
  rewrite IH, andb_true_r. now apply Qeq_bool_iff.
Qed.

Lemma clip_by_value_wd (x y lo hi : Q) :
  x == y -> clip_by_value x lo hi == clip_by_value y lo hi.
Proof. intros E. unfold clip_by_value. now rewrite E. Qed.

Lemma scale_add_clip_wd (k k' : Q) (labels : list bool) (distill : Row) :
  k == k' ->
  row_eq (scale_add_clip k labels distill) (scale_add_clip k' labels distill).
Proof.
  intros E. unfold scale_add_clip, row_eq.
  generalize (map cast_float32 labels) as fl. intros fl.
  revert distill. induction fl as [|l fl IH]; intros [|d distill]; simpl;
    try constructor.
  - apply clip_by_value_wd. now rewrite E.
  - apply IH.
Qed.

Lemma reduce_sum_scale (k : Q) (r : Row) :
  reduce_sum (map (fun d => d * k) r) == reduce_sum r * k.
Proof.
  induction r as [|d r IH]; simpl; [ring|]. rewrite IH. ring.
Qed.

Lemma reform_labels_lookup (p : Q) (L : list (list bool)) (D : Tensor)
    (i : nat) (l : list bool) (d : Row) :
  L !! i = Some l -> D !! i = Some d ->
  reform_labels p L D !! i = Some (reform_row p l d).
Proof.
  revert D i. induction L as [|l0 L IH]; intros [|d0 D] [|i]; simpl;
    try discriminate.
  - now intros [= ->] [= ->].
  - apply IH.
Qed.

(** C1, as amended.  In the blend mode the hybrid row of every example is
    the ground-truth row plus the distilled row times
    [p * (sum labels / (sum distilled + 1e-6))], clipped into [[0,1]];
    the distilled row times the ratio alone has the mass of the labels
    up to the epsilon of the denominator; and with label mass 2,
    distilled mass 1 and [p = 1/2] the factor is [1000000/1000001], so
    the hybrid row is about [labels + distilled], not
    [labels + distilled * 2]. *)
Theorem blend_hybrid_labels (f : FLAGS.t) (L : list (list bool))
    (D : Tensor) (i : nat) (l : list bool) (d : Row) :
  FLAGS.distillation_features f = true ->
  FLAGS.distillation_type f = 2%Z ->
  L !! i = Some l -> D !! i = Some d ->
  let p := FLAGS.distillation_percent f in
  let s_l := reduce_sum (map cast_float32 l) in
  let s_d := reduce_sum d in
  exists r : Row,
    distill_labels f L D !! i = Some r /\
    row_eq r (scale_add_clip (p * (s_l / (s_d + epsilon))) l d) /\
    (~ s_d + epsilon == 0 ->
     reduce_sum (map (fun x => x * (s_l / (s_d + epsilon))) d)
       * (s_d + epsilon) == s_l * s_d) /\
    (s_l == 2 -> s_d == 1 -> p == 1 # 2 ->
     row_eq r (scale_add_clip (1000000 # 1000001) l d)).
Proof.
  intros Hfeat Htype HL HD p s_l s_d.
  exists (reform_row p l d). split; [|split; [|split]].
  - unfold distill_labels. rewrite Hfeat, Htype. simpl.
    now apply reform_labels_lookup.
  - change (reform_row p l d)
      with (scale_add_clip (s_l / (s_d + epsilon) * p) l d).
    apply scale_add_clip_wd. ring.
  - intros Hnz. rewrite reduce_sum_scale. fold s_d. field. exact Hnz.
  - intros Hl Hd Hp.
    change (reform_row p l d)
      with (scale_add_clip (s_l / (s_d + epsilon) * p) l d).
    apply scale_add_clip_wd. rewrite Hl, Hd, Hp. reflexivity.
Qed.

Lemma blend_hybrid_labels_witness :
  exists r : Row,
    distill_labels Examples.blend_flags [[true; true; false]]
      [[1 # 4; 1 # 4; 1 # 2]] !! 0%nat = Some r /\
    row_eq r (scale_add_clip (1000000 # 1000001) [true; true; false]
                [1 # 4; 1 # 4; 1 # 2]).
Proof.
  destruct (blend_hybrid_labels Examples.blend_flags
              [[true; true; false]] [[1 # 4; 1 # 4; 1 # 2]] 0
              [true; true; false] [1 # 4; 1 # 4; 1 # 2]
              eq_refl eq_refl eq_refl eq_refl) as (r & Hr & _ & _ & H).
  exists r. split; [exact Hr|]. apply H; reflexivity.
Defined.

(** C1, the scenario as the specification words it: at label mass 2,
    distilled mass 1 and [p = 1/2] the hybrid row is not
    [labels + distilled * 2] clipped.  The third entry is
    [500000/1000001] where the stated vector has [1]. *)
Lemma blend_factor_two_refuted :
  let labels := [true; true; false] in
  let distill := [1 # 4; 1 # 4; 1 # 2] in
  reduce_sum (map cast_float32 labels) == 2 /\
  reduce_sum distill == 1 /\
  distill_labels Examples.blend_flags [labels] [distill]
    = [reform_row (1 # 2) labels distill] /\
  ~ row_eq (reform_row (1 # 2) labels distill)
           (scale_add_clip 2 labels distill).
Proof.
  repeat split.
  intros E. apply row_eqb_complete in E. vm_compute in E. discriminate.
Qed.

(** C2, as amended.  In the replace mode ([distillation_features] with
    [distillation_type == 1]), when the model result has no ["loss"]
    entry of its own, the label loss is the loss on the ground-truth
    labels for [p <= 0], the loss on the distilled labels for [p >= 1]
    and [(1-p) * loss(labels) + p * loss(distilled)] in between, with
    weights that are positive and add up to one; the same holds with
    the support predictions of a multitask model, when the result has
    them. *)
Theorem replace_label_loss `{LossFn} (f : FLAGS.t)
    (augment_labels : list (list bool) -> list (list bool))
    (res : ModelResult) (L : list (list bool)) (D : Tensor) (w : Row) :
  FLAGS.distillation_features f = true ->
  FLAGS.distillation_type f = 1%Z ->
  loss res = None ->
  (FLAGS.multitask f = true -> is_Some (support_predictions res)) ->
  let p := FLAGS.distillation_percent f in
  let weights := if FLAGS.reweight f then Some w else None in
  let calc (lbl : LabelTensor) : Q :=
    if FLAGS.multitask f
    then calculate_loss_support (predictions res)
           (default [] (support_predictions res)) lbl weights
    else calculate_loss (predictions res) lbl weights in
  let label_loss := graph_label_loss f augment_labels res L D w in
  (p <= 0 -> label_loss = Ok (calc (BoolLabels (augment_labels L)))) /\
  (1 <= p -> label_loss = Ok (calc (FloatLabels D))) /\
  (0 < p -> p < 1 ->
   label_loss = Ok (calc (BoolLabels (augment_labels L)) * (1 - p)
                    + calc (FloatLabels D) * p) /\
   0 < 1 - p /\ (1 - p) + p == 1).
Proof.
  intros Hfeat Htype Hloss Hsup p weights calc label_loss.
  assert (Hle0 : p <= 0 -> Qle_bool p 0 = true)
    by (intros; now apply Qle_bool_iff).
  assert (Hle1 : 1 <= p -> Qle_bool p 0 = false /\ Qle_bool 1 p = true).
  { intros H1. split; [|now apply Qle_bool_iff].
    destruct (Qle_bool p 0) eqn:E; [|reflexivity].
    apply Qle_bool_iff in E. exfalso.
    apply (Qlt_irrefl 0). apply Qlt_le_trans with 1; [reflexivity|].
    now apply Qle_trans with p. }
  assert (Hmid : 0 < p -> p < 1 ->
                 Qle_bool p 0 = false /\ Qle_bool 1 p = false).
  { intros H0 H1. split.
    - destruct (Qle_bool p 0) eqn:E; [|reflexivity].
      apply Qle_bool_iff in E. exfalso.
      apply (Qlt_irrefl 0). now apply Qlt_le_trans with p.
    - destruct (Qle_bool 1 p) eqn:E; [|reflexivity].
      apply Qle_bool_iff in E. exfalso.
      apply (Qlt_irrefl p). now apply Qlt_le_trans with 1. }
  assert (Hshape : label_loss =
    if Qle_bool p 0 then Ok (calc (BoolLabels (augment_labels L)))
    else if Qle_bool 1 p then Ok (calc (FloatLabels D))
    else Ok (calc (BoolLabels (augment_labels L)) * (1 - p)
             + calc (FloatLabels D) * p)).
  { subst label_loss calc weights p.
    unfold graph_label_loss, Graph.label_loss, distill_labels.
    rewrite Hloss, Hfeat, Htype. simpl.
    destruct (FLAGS.multitask f); [|reflexivity].
    destruct (Hsup eq_refl) as [s Hs]. rewrite Hs. reflexivity. }
  split; [|split].
  - intros Hp. now rewrite Hshape, (Hle0 Hp).
  - intros Hp. destruct (Hle1 Hp) as [E0 E1]. now rewrite Hshape, E0, E1.
  - intros H0 H1. destruct (Hmid H0 H1) as [E0 E1].
    split; [now rewrite Hshape, E0, E1|]. split; [|ring].
    now apply Qlt_minus_iff in H1.
Qed.

Lemma replace_label_loss_witness :
  graph_label_loss (H := Examples.mass_loss)
    (Examples.distill_flags 1 (3 # 10) true) id Examples.plain_result
    [[true; false]] [[1 # 2; 1 # 4]] []
  = Ok (2 * (1 + 0 + 0 + 0) * (1 - (3 # 10))
        + 2 * ((1 # 2) + ((1 # 4) + 0) + 0) * (3 # 10)).
Proof.
  refine (proj1 (proj2 (proj2
    (replace_label_loss (H := Examples.mass_loss)
       (Examples.distill_flags 1 (3 # 10) true) id Examples.plain_result
       [[true; false]] [[1 # 2; 1 # 4]] [] eq_refl eq_refl eq_refl _))
    _ _)).
  - intros _. exists [[1 # 3]]. reflexivity.
  - reflexivity.
  - reflexivity.
Defined.

(** C2, as the specification words it, read on every model: a model
    result that carries its own ["loss"] fixes the label loss, whatever
    [p] is.  At [p = 0] the label loss is [7], not the loss on the
    ground-truth labels, and at [p = 1] it is [7], not the loss on the
    distilled labels. *)
Lemma replace_label_loss_own_loss_refuted :
  let L := [[true; false]] in
  let D := [[1 # 2; 1 # 4]] in
  let at_p (p : Q) :=
    graph_label_loss (H := Examples.mass_loss)
      (Examples.distill_flags 1 p false) id Examples.own_loss_result L D [] in
  at_p 0 = Ok (7 # 1) /\
  at_p 0 <> Ok (calculate_loss (LossFn := Examples.mass_loss)
                  [[1 # 2]] (BoolLabels L) None) /\
  at_p 1 = Ok (7 # 1) /\
  at_p 1 <> Ok (calculate_loss (LossFn := Examples.mass_loss)
                  [[1 # 2]] (FloatLabels D) None).
Proof.
  repeat split; vm_compute; discriminate.
Qed.
End GraphFacts.

Section DispatchFacts.

Lemma trainer_init_ok (cluster : option ClusterSpec) (task : TaskSpec.t)
    (train_dir : string) :
  Trainer.init cluster task train_dir =
  Ok {| Trainer.cluster := cluster;
        Trainer.task := task;
        Trainer.is_master := String.eqb (TaskSpec.type task) "master"
                             && (TaskSpec.index task =? 0);
        Trainer.train_dir := train_dir |}.
Proof.
  unfold Trainer.init. simpl.
  destruct (String.eqb (TaskSpec.type task) "master"); simpl; [|reflexivity].
  destruct (Z.eqb_spec (TaskSpec.index task) 0) as [E|E]; simpl;
    [|reflexivity].
  rewrite E. reflexivity.
Qed.

(** C3.  The constructor of the trainer never raises: the guard of line
    469 asks for [is_master], which holds only at index 0, together
    with an index above 0.  A second master, at index 1, is accepted as
    a trainer that is not the master. *)
Theorem trainer_init_never_raises :
  (forall cluster task train_dir,
     raises (Trainer.init cluster task train_dir) = false) /\
  Trainer.init (Some Examples.two_masters)
    {| TaskSpec.type := "master"; TaskSpec.index := 1 |} "/tmp/yt8m_model/"
  = Ok {| Trainer.cluster := Some Examples.two_masters;
          Trainer.task := {| TaskSpec.type := "master"; TaskSpec.index := 1 |};
          Trainer.is_master := false;
          Trainer.train_dir := "/tmp/yt8m_model/" |}.
Proof.
  split; [|reflexivity].
  intros cluster task train_dir. now rewrite trainer_init_ok.
Qed.

(** C5.  The dispatch of [main] builds one object: a trainer when there
    is no cluster or the task type is master or worker, master exactly
    for type master at index 0; a parameter server for type ps within a
    cluster; and it raises [ValueError] for every other type within a
    cluster. *)
Theorem dispatch_role (f : FLAGS.t) (cluster : option ClusterSpec)
    (task : TaskSpec.t) :
  (cluster_truthy cluster = false \/ TaskSpec.type task = "master"
   \/ TaskSpec.type task = "worker" ->
   exists trainer,
     dispatch f cluster task = Ok (TrainerRole trainer) /\
     Trainer.cluster trainer = cluster /\
     Trainer.task trainer = task /\
     Trainer.train_dir trainer = FLAGS.train_dir f /\
     (Trainer.is_master trainer = true <->
      TaskSpec.type task = "master" /\ TaskSpec.index task = 0)) /\
  (cluster_truthy cluster = true -> TaskSpec.type task = "ps" ->
   dispatch f cluster task
   = Ok (ParameterServerRole
           {| ParameterServer.cluster := cluster;
              ParameterServer.task := task |})) /\
  (cluster_truthy cluster = true ->
   TaskSpec.type task <> "master" -> TaskSpec.type task <> "worker" ->
   TaskSpec.type task <> "ps" ->
   exists msg, dispatch f cluster task = Raise (ValueError msg)).
Proof.
  split; [|split].
  - intros Hcase.
    assert (Hcond : negb (cluster_truthy cluster)
                    || String.eqb (TaskSpec.type task) "master"
                    || String.eqb (TaskSpec.type task) "worker" = true).
    { destruct Hcase as [E | [E | E]]; rewrite E; simpl;
        rewrite ?orb_true_r; reflexivity. }
    eexists. split.
    { unfold dispatch. rewrite trainer_init_ok, Hcond. reflexivity. }
    simpl. do 3 (split; [reflexivity|]). split.
    + intros [E1 E2]%andb_true_iff. split.
      * now apply String.eqb_eq in E1.
      * now apply Z.eqb_eq in E2.
    + intros [-> ->]. reflexivity.
  - intros Hc Ht. unfold dispatch. rewrite Hc, Ht. reflexivity.
  - intros Hc Hm Hw Hp. unfold dispatch. rewrite Hc.
    apply String.eqb_neq in Hm, Hw, Hp. rewrite Hm, Hw, Hp. simpl.
    eexists. reflexivity.
Qed.

Lemma dispatch_role_witness :
  (exists trainer,
     dispatch Examples.base_flags None default_task
     = Ok (TrainerRole trainer) /\ Trainer.is_master trainer = true) /\
  dispatch Examples.base_flags (Some Examples.two_masters)
    {| TaskSpec.type := "ps"; TaskSpec.index := 0 |}
  = Ok (ParameterServerRole
          {| ParameterServer.cluster := Some Examples.two_masters;
             ParameterServer.task :=
               {| TaskSpec.type := "ps"; TaskSpec.index := 0 |} |}) /\
  (exists msg,
     dispatch Examples.base_flags (Some Examples.two_masters)
       {| TaskSpec.type := "chief"; TaskSpec.index := 0 |}
     = Raise (ValueError msg)).
Proof.
  split; [|split].
  - destruct (proj1 (dispatch_role Examples.base_flags None default_task)
                (or_introl eq_refl)) as (tr & Hd & _ & _ & _ & Hm).
    exists tr. split; [exact Hd|]. apply Hm. split; reflexivity.
  - apply (proj1 (proj2 (dispatch_role Examples.base_flags
             (Some Examples.two_masters)
             {| TaskSpec.type := "ps"; TaskSpec.index := 0 |}))).
    + vm_compute. reflexivity.
    + reflexivity.
  - apply (proj2 (proj2 (dispatch_role Examples.base_flags
             (Some Examples.two_masters)
             {| TaskSpec.type := "chief"; TaskSpec.index := 0 |}))).
    + vm_compute. reflexivity.
    + discriminate.
    + discriminate.
    + discriminate.
Defined.
End DispatchFacts.

(** ** Rules for [sat] *)

Section SatRules.
Context `{Runtime}.
Variable P : event -> bool.

Lemma sat_ret {A} (Q : A -> Prop) (a : A) : Q a -> sat P Q (mret a).
Proof. intros HQ s. split; [reflexivity|]. now intros a' [= <-]. Qed.

Lemma sat_raise {A} (Q : A -> Prop) (e : exn) : sat P Q (raise e).
Proof. intros s. split; [reflexivity|]. intros a [=]. Qed.

Lemma sat_emit (Q : unit -> Prop) (e : event) :
  P e = true -> Q tt -> sat P Q (emit e).
Proof.
  intros HP HQ s. split; [simpl; now rewrite HP|]. now intros [] _.
Qed.

Lemma sat_lift {A} (Q : A -> Prop) (r : result A) :
  (forall a, r = Ok a -> Q a) -> sat P Q (lift r).
Proof. intros HQ s. split; [reflexivity|]. exact HQ. Qed.

Lemma sat_attempt (Q : unit -> Prop) (o : option exn) :
  Q tt -> sat P Q (attempt o).
Proof.
  intros HQ. destruct o; [apply sat_raise|]. now apply (sat_ret Q tt).
Qed.

Lemma sat_read {A} (Q : A -> Prop) (g : FS -> A) :
  (forall s, Q (g s)) -> sat P Q (fun s => (Ok (g s), s, [])).
Proof. intros HQ s. split; [reflexivity|]. intros a [= <-]. apply HQ. Qed.

Lemma sat_bind {A B} (Q : A -> Prop) (R : B -> Prop) (c : M A)
    (k : A -> M B) :
  sat P Q c -> (forall a, Q a -> sat P R (k a)) -> sat P R (c ≫= k).
Proof.
  intros Hc Hk s. unfold mbind, M_bind, bind.
  destruct (Hc s) as [Hev Hout]. destruct (c s) as [[[a|e] s1] t1].
  - destruct (Hk a (Hout a eq_refl) s1) as [Hev' Hout'].
    destruct (k a s1) as [[r s2] t2]. unfold events, outcome in *.
    simpl in *. split; [|exact Hout'].
    rewrite forallb_app, Hev, Hev'. reflexivity.
  - split; [exact Hev|]. intros a [=].
Qed.

Lemma sat_seq {A B} (R : B -> Prop) (c : M A) (k : A -> M B) :
  sat P (fun _ => True) c -> (forall a, sat P R (k a)) -> sat P R (c ≫= k).
Proof. intros Hc Hk. apply (sat_bind (fun _ => True)); auto. Qed.

Lemma sat_try {A} (Q : A -> Prop) (c handler : M A) :
  sat P Q c -> sat P Q handler -> sat P Q (try_except c handler).
Proof.
  intros Hc Hh s. unfold try_except.
  destruct (Hc s) as [Hev Hout]. destruct (c s) as [[[a|e] s1] t1].
  - split; [exact Hev|exact Hout].
  - destruct (Hh s1) as [Hev' Hout'].
    destruct (handler s1) as [[r s2] t2]. unfold events, outcome in *.
    simpl in *. split; [|exact Hout'].
    rewrite forallb_app, Hev, Hev'. reflexivity.
Qed.

Lemma sat_weaken {A} (Q Q' : A -> Prop) (c : M A) :
  (forall a, Q a -> Q' a) -> sat P Q c -> sat P Q' c.
Proof.
  intros HQ Hc s. destruct (Hc s) as [Hev Hout]. split; [exact Hev|].
  intros a Ha. apply HQ, Hout, Ha.
Qed.
End SatRules.

(** ** The events of [Trainer.run] *)

Ltac sat_trivial :=
  first
    [ apply sat_emit; [reflexivity | exact I]
    | apply sat_ret; exact I
    | apply sat_raise
    | apply sat_attempt; exact I
    | apply sat_lift; intros; exact I
    | apply sat_read; intros; exact I ].

Ltac sat_steps :=
  repeat first [ sat_trivial | apply sat_seq; [| intros ?] ].

Section StartupFacts.
Context `{Runtime} `{Registry.Modules}.
Variable f : FLAGS.t.
Variable start_new_model : bool.

Let P := startup_event start_new_model.
Let any {A : Type} : A -> Prop := fun _ => True.

Lemma start_server_sat (c : ClusterSpec) (task : TaskSpec.t) :
  sat P any (start_server c task).
Proof.
  unfold start_server. destruct (String.eqb _ _); sat_steps.
Qed.

Lemma start_server_if_distributed_sat (self : Trainer.t) :
  sat P any (Trainer.start_server_if_distributed self).
Proof.
  unfold Trainer.start_server_if_distributed, logging_info.
  destruct (cluster_truthy _); sat_steps. apply start_server_sat.
Qed.

Lemma remove_training_directory_sat (self : Trainer.t) (D : string) :
  sat P any (Trainer.remove_training_directory self D).
Proof.
  unfold Trainer.remove_training_directory, logging_info, logging_error.
  apply sat_try; sat_steps.
  intros s. unfold Trainer.delete_recursively.
  destruct (DeleteRecursively s D) as [s' [e|]]; split; try reflexivity;
    intros; exact I.
Qed.

Lemma get_latest_checkpoint_sat (self : Trainer.t) (D : string) :
  sat P (fun ck => start_new_model = true -> ck = None)
      (Trainer.get_latest_checkpoint self start_new_model D).
Proof.
  unfold Trainer.get_latest_checkpoint, logging_info.
  destruct start_new_model eqn:E.
  - apply sat_seq; [sat_trivial|]. intros _. now apply sat_ret.
  - apply (sat_weaken _ any); [discriminate|].
    apply sat_seq; [sat_trivial|]. intros [c|]; [destruct (String.eqb c "")|];
      sat_steps.
Qed.

Lemma build_model_sat (self : Trainer.t) :
  sat P any (Trainer.build_model f self).
Proof.
  unfold Trainer.build_model, Trainer.build_graph,
    Trainer.get_input_data_tensors, logging_info.
  sat_steps.
  match goal with |- sat _ _ (match ?files with _ => _ end) =>
    destruct files end; sat_steps.
Qed.

Lemma resume_sat (self : Trainer.t) :
  sat P (fun ck => start_new_model = true -> ck = None)
      (Trainer.resume self start_new_model).
Proof.
  unfold Trainer.resume.
  apply sat_seq.
  { destruct (_ && _); [apply remove_training_directory_sat|sat_trivial]. }
  intros _. apply sat_seq; [apply start_server_if_distributed_sat|].
  intros _. apply get_latest_checkpoint_sat.
Qed.

Lemma startup_sat (self : Trainer.t) :
  sat P any (Trainer.startup f self start_new_model).
Proof.
  unfold Trainer.startup.
  eapply sat_bind; [apply resume_sat|].
  intros ck Hck. apply sat_seq; [apply build_model_sat|].
  intros _. unfold logging_info. apply sat_seq; [sat_trivial|].
  intros _. apply sat_seq.
  - destruct ck as [c|]; [|sat_trivial].
    intros s. unfold Trainer.saver_restore.
    assert (HP : negb start_new_model = true).
    { destruct start_new_model; [|reflexivity].
      now specialize (Hck eq_refl). }
    destruct (restore s c); simpl; rewrite HP; split; try reflexivity;
      intros; exact I.
  - intros _. destruct (FLAGS.reweight f); sat_trivial.
Qed.
End StartupFacts.

Section LoopFacts.
Context `{Runtime} `{Registry.Modules}.
Variable f : FLAGS.t.

Lemma forallb_impl (P Q : event -> bool) (l : list event) :
  (forall e, P e = true -> Q e = true) ->
  forallb P l = true -> forallb Q l = true.
Proof.
  intros HPQ. induction l as [|e l IH]; simpl; [reflexivity|].
  intros [He Hl]%andb_true_iff. now rewrite (HPQ e He), IH.
Qed.

(** One report: the exception of line 547 at a zero time, and else the
    events, with the dead branch of line 553 gone. *)
Lemma report_unfold (self : Trainer.t) (v : StepValues) (secs : Q) :
  Trainer.report f self v secs =
  if Qeq_bool secs 0
  then (Raise (ZeroDivisionError "float division by zero"), [])
  else
  let hit_at_one := calculate_hit_at_one (predictions_val v) (labels_val v) in
  let perr :=
    calculate_precision_at_equal_recall_rate (predictions_val v)
      (labels_val v) in
  let gap := calculate_gap (predictions_val v) (labels_val v) in
  (Ok tt,
   [EvalUtil HitAtOne; EvalUtil PERR; EvalUtil GAP;
    Logging INFO (Trainer.training_step_message f self (global_step_val v)
                    hit_at_one perr gap "N/A" (loss_val v));
    AddSummary "model/Training_Hit@1" hit_at_one (global_step_val v);
    AddSummary "model/Training_Perr" perr (global_step_val v);
    AddSummary "model/Training_GAP" gap (global_step_val v);
    AddSummary "global_step/Examples/Second"
      (inject_Z (Z.of_nat (length (labels_val v))) / secs)%Q
      (global_step_val v);
    SummaryFlush]).
Proof. reflexivity. Qed.

Lemma report_events (self : Trainer.t) (v : StepValues) (secs : Q) :
  forallb (loop_event true) (events (Trainer.report f self v secs)) = true.
Proof. rewrite report_unfold. destruct (Qeq_bool secs 0); reflexivity. Qed.

Lemma training_loop_S (self : Trainer.t) (fuel steps : nat) :
  Trainer.training_loop f (S fuel) self steps =
  if should_stop steps then (Some (Ok tt), [])
  else
    match session_run (S steps) with
    | Raise e => (Some (Raise e), [SessionRun (S steps)])
    | Ok v =>
      match fst (Trainer.iteration f self (S steps) v) with
      | Raise e => (Some (Raise e), snd (Trainer.iteration f self (S steps) v))
      | Ok _ =>
        if Trainer.max_steps_exceeded f (S steps) then
          (Some (Ok tt),
           snd (Trainer.iteration f self (S steps) v)
           ++ [Logging INFO (task_as_string (Trainer.task self)
                 +:+ ": Done training -- max_steps limit reached.")])
        else
          (fst (Trainer.training_loop f fuel self (S steps)),
           snd (Trainer.iteration f self (S steps) v)
           ++ snd (Trainer.training_loop f fuel self (S steps)))
      end
    end.
Proof.
  simpl. destruct (should_stop steps); [reflexivity|].
  destruct (session_run (S steps)) as [v|e]; [|reflexivity].
  destruct (Trainer.iteration f self (S steps) v) as [[[]|e] here];
    [|reflexivity]. cbn [fst snd].
  destruct (Trainer.max_steps_exceeded f (S steps)); [reflexivity|].
  now destruct (Trainer.training_loop f fuel self (S steps)).
Qed.

Lemma iteration_unfold (self : Trainer.t) (steps : nat) (v : StepValues) :
  Trainer.iteration f self steps v =
  if Trainer.is_master self then
    (fst (Trainer.report f self v (seconds_per_batch steps)),
     SessionRun steps
     :: snd (Trainer.report f self v (seconds_per_batch steps)))
  else (Ok tt, [SessionRun steps]).
Proof.
  unfold Trainer.iteration. destruct (Trainer.is_master self); [|reflexivity].
  now destruct (Trainer.report f self v (seconds_per_batch steps)).
Qed.

Lemma iteration_events (self : Trainer.t) (steps : nat) (v : StepValues) :
  forallb (loop_event (Trainer.is_master self))
          (snd (Trainer.iteration f self steps v)) = true.
Proof.
  rewrite iteration_unfold.
  destruct (Trainer.is_master self); [|reflexivity].
  exact (report_events self v (seconds_per_batch steps)).
Qed.

Lemma training_loop_events (self : Trainer.t) (fuel steps : nat) :
  forallb (loop_event (Trainer.is_master self))
          (events (Trainer.training_loop f fuel self steps)) = true.
Proof.
  revert steps. induction fuel as [|fuel IH]; intros steps;
    [reflexivity|].
  rewrite training_loop_S.
  destruct (should_stop steps); [reflexivity|].
  destruct (session_run (S steps)) as [v|e]; [|reflexivity].
  pose proof (iteration_events self (S steps) v) as Hhere.
  destruct (fst (Trainer.iteration f self (S steps) v)) as [[]|e];
    [|exact Hhere].
  destruct (Trainer.max_steps_exceeded f (S steps)); unfold events;
    cbn [snd]; rewrite forallb_app, Hhere; [reflexivity|].
  apply IH.
Qed.

Lemma run_events (self : Trainer.t) (start_new_model : bool) (fuel : nat)
    (s : FS) :
  forallb (run_event start_new_model (Trainer.is_master self))
          (events (Trainer.run f fuel self start_new_model s)) = true.
Proof.
  unfold Trainer.run.
  destruct (startup_sat f start_new_model self s) as [Hst _].
  pose proof (training_loop_events self fuel 0) as Hloop.
  apply (forallb_impl _ (run_event start_new_model (Trainer.is_master self)))
    in Hst; [|intros e He; unfold run_event; now rewrite He].
  apply (forallb_impl _ (run_event start_new_model (Trainer.is_master self)))
    in Hloop;
    [|intros e He; unfold run_event; rewrite He; now rewrite orb_true_r].
  destruct (Trainer.startup f self start_new_model s) as [[[[]|e] s1] t1];
    [|exact Hst].
  destruct (Trainer.training_loop f fuel self 0) as [[[[]|e]|] t2];
    unfold events in *; simpl in *;
    [| destruct e | ]; simpl;
    rewrite ?forallb_app; simpl; rewrite ?forallb_app, ?Hst, ?Hloop; simpl;
    reflexivity.
Qed.
End LoopFacts.

(** ** The resume decision *)

Section ResumeFacts.
Context `{Runtime} `{Registry.Modules}.
Variable f : FLAGS.t.

Lemma remove_training_directory_ok (self : Trainer.t) (D : string) (s : FS) :
  Trainer.remove_training_directory self D s =
  (Ok tt, fst (DeleteRecursively s D),
   [Logging INFO (task_as_string (Trainer.task self)
                  +:+ ": Removing existing train directory.");
    DeleteRecursivelyCall D]
   ++ match snd (DeleteRecursively s D) with
      | Some _ =>
        [Logging ERROR
           (task_as_string (Trainer.task self)
            +:+ ": Failed to delete directory " +:+ D
            +:+ " when starting a new model. Please delete it manually and"
            +:+ " try again.")]
      | None => []
      end).
Proof.
  unfold Trainer.remove_training_directory, try_except, mbind, M_bind, bind,
    logging_info, logging_error, emit, Trainer.delete_recursively.
  destruct (DeleteRecursively s D) as [s' [e|]]; reflexivity.
Qed.


End ResumeFacts.


(** ** Reporting in the loop *)

Section ReportFacts.
Context `{Runtime} `{Registry.Modules}.
Variable f : FLAGS.t.

Lemma append_assoc (a b c : string) : a +:+ (b +:+ c) = (a +:+ b) +:+ c.
Proof.
  induction a as [|x a IH]; [reflexivity|].
  change (String x (a +:+ (b +:+ c)) = String x ((a +:+ b) +:+ c)).
  now rewrite IH.
Qed.

Lemma training_tag_not_recall (tag : string) :
  tag ∈ training_tags -> String.prefix "model/Training_Recall@" tag = false.
Proof.
  unfold training_tags. intros Hin. set_unfold.
  repeat (destruct Hin as [-> | Hin]; [reflexivity|]).
  first [ now subst | contradiction ].
Qed.

Lemma run_event_not_report (start_new_model : bool) (e : event) :
  run_event start_new_model false e = true -> negb (is_report e) = true.
Proof.
  intros He. destruct e as [| | | | | |m| | |]; try reflexivity;
    try (now destruct m); discriminate.
Qed.

Lemma run_event_not_recall (start_new_model is_master : bool) (e : event) :
  run_event start_new_model is_master e = true -> negb (is_recall e) = true.
Proof.
  intros He. destruct e as [| | | | | |m|tag x g| |]; try reflexivity.
  - now destruct m, is_master.
  - revert He. unfold run_event. simpl. rewrite orb_false_r.
    intros [_ Htag]%andb_true_iff. apply bool_decide_eq_true in Htag.
    apply training_tag_not_recall in Htag. rewrite Htag.
    apply negb_true_iff, bool_decide_eq_false. discriminate.
Qed.

(** C6.  The report of a pass.  A pass of the loop whose session run
    returned emits the events of [iteration]; these hold a computation of
    a metric or a write to the summary writer exactly when the process is
    the master and the measured time of the pass is not zero.  On the
    master with a time that is not zero they are Hit@1, PERR and GAP, the
    log record with the step, the three metrics and the loss, the four
    summaries, the examples per second among them, and the flush.  On
    the master with a time of zero line 547 raises [ZeroDivisionError]
    before any metric is computed: the pass emits nothing and the loop
    ends with that exception, where the specification has the master
    report in every iteration.  On any other process the pass emits
    nothing, and the whole run computes no metric and writes no
    summary. *)
Theorem report_iff_master (self : Trainer.t) :
  (forall fuel steps v,
     should_stop steps = false -> session_run (S steps) = Ok v ->
     exists rest,
       events (Trainer.training_loop f (S fuel) self steps)
       = snd (Trainer.iteration f self (S steps) v) ++ rest) /\
  (forall steps v,
     existsb is_report (snd (Trainer.iteration f self steps v))
     = Trainer.is_master self && negb (Qeq_bool (seconds_per_batch steps) 0)) /\
  (Trainer.is_master self = true ->
   forall steps v,
     Qeq_bool (seconds_per_batch steps) 0 = false ->
     let hit_at_one :=
       calculate_hit_at_one (predictions_val v) (labels_val v) in
     let perr :=
       calculate_precision_at_equal_recall_rate (predictions_val v)
         (labels_val v) in
     let gap := calculate_gap (predictions_val v) (labels_val v) in
     Trainer.iteration f self steps v =
     (Ok tt,
      [SessionRun steps;
       EvalUtil HitAtOne; EvalUtil PERR; EvalUtil GAP;
       Logging INFO
         (task_as_string (Trainer.task self) +:+ ": training step "
          +:+ pretty (global_step_val v) +:+ "| Hit@1: "
          +:+ format_2f hit_at_one +:+ " PERR: " +:+ format_2f perr
          +:+ " GAP: " +:+ format_2f gap +:+ " Recall@"
          +:+ pretty (FLAGS.recall_at_n f) +:+ ": " +:+ "N/A"
          +:+ " Loss: " +:+ str_float (loss_val v));
       AddSummary "model/Training_Hit@1" hit_at_one (global_step_val v);
       AddSummary "model/Training_Perr" perr (global_step_val v);
       AddSummary "model/Training_GAP" gap (global_step_val v);
       AddSummary "global_step/Examples/Second"
         (inject_Z (Z.of_nat (length (labels_val v)))
          / seconds_per_batch steps)%Q
         (global_step_val v);
       SummaryFlush])) /\
  (Trainer.is_master self = true ->
   forall fuel steps v,
     should_stop steps = false -> session_run (S steps) = Ok v ->
     Qeq_bool (seconds_per_batch (S steps)) 0 = true ->
     Trainer.training_loop f (S fuel) self steps
     = (Some (Raise (ZeroDivisionError "float division by zero")),
        [SessionRun (S steps)])) /\
  (Trainer.is_master self = false ->
   (forall steps v,
      Trainer.iteration f self steps v = (Ok tt, [SessionRun steps])) /\
   (forall fuel start_new_model s,
      forallb (fun e => negb (is_report e))
              (events (Trainer.run f fuel self start_new_model s)) = true)).
Proof.
  split; [|split; [|split; [|split]]].
  - intros fuel steps v Hstop Hrun. rewrite training_loop_S, Hstop, Hrun.
    destruct (fst (Trainer.iteration f self (S steps) v)) as [[]|e].
    + destruct (Trainer.max_steps_exceeded f (S steps)); eexists;
        reflexivity.
    + exists []. unfold events. cbn [snd]. now rewrite app_nil_r.
  - intros steps v. rewrite iteration_unfold.
    destruct (Trainer.is_master self); [|reflexivity].
    rewrite report_unfold.
    destruct (Qeq_bool (seconds_per_batch steps) 0); reflexivity.
  - intros Hmaster steps v Hclock. rewrite iteration_unfold, Hmaster.
    rewrite report_unfold, Hclock. reflexivity.
  - intros Hmaster fuel steps v Hstop Hrun Hclock.
    rewrite training_loop_S, Hstop, Hrun, iteration_unfold, Hmaster.
    rewrite report_unfold, Hclock. reflexivity.
  - intros Hmaster. split.
    + intros steps v. rewrite iteration_unfold. now rewrite Hmaster.
    + intros fuel b s.
      apply (forallb_impl (run_event b false));
        [apply run_event_not_report|].
      rewrite <- Hmaster. apply run_events.
Qed.

(** C10.  Recall at N is never computed: no report holds a call of the
    recall metric or a summary under its tag, the record a report logs
    reads [N/A] after [Recall@N:] for every value of the flag
    [recall_at_n], and no run of the trainer emits such an event. *)
Theorem recall_never_computed (self : Trainer.t) :
  (forall v secs e,
     In e (events (Trainer.report f self v secs)) -> is_recall e = false) /\
  (forall v secs lv msg,
     In (Logging lv msg) (events (Trainer.report f self v secs)) ->
     exists prefix,
       msg = prefix +:+ " Recall@" +:+ pretty (FLAGS.recall_at_n f)
             +:+ ": " +:+ "N/A" +:+ " Loss: " +:+ str_float (loss_val v)) /\
  (forall fuel start_new_model s,
     forallb (fun e => negb (is_recall e))
             (events (Trainer.run f fuel self start_new_model s)) = true).
Proof.
  split; [|split].
  - intros v secs e. rewrite report_unfold.
    destruct (Qeq_bool secs 0); [intros []|]. unfold events.
    cbv zeta. cbn [snd In].
    intros Hin.
    repeat (destruct Hin as [<- | Hin]; [reflexivity|]). destruct Hin.
  - intros v secs lv msg. rewrite report_unfold.
    destruct (Qeq_bool secs 0); [intros []|]. unfold events.
    cbv zeta. cbn [snd In].
    intros Hin.
    repeat (destruct Hin as [E | Hin];
            [first [ discriminate E
                   | injection E as _ <-;
                     unfold Trainer.training_step_message;
                     set (tail := " Recall@" +:+ _);
                     rewrite !append_assoc; eexists; reflexivity ]|]).
    destruct Hin.
  - intros fuel b s.
    apply (forallb_impl (run_event b (Trainer.is_master self)));
      [apply run_event_not_recall|apply run_events].
Qed.
End ReportFacts.

(** ** Failures before the loop *)

Section RegistryFacts.
Import Registry.

Lemma next_truthy_raise (candidates : list (option pyobj)) (e : exn) :
  next_truthy candidates = Raise e ->
  e = StopIteration /\ existsb truthy candidates = false.
Proof.
  induction candidates as [|a l IH]; simpl.
  - intros [= <-]. split; reflexivity.
  - destruct a as [[n mro|[|]]|]; simpl; try discriminate; exact IH.
Qed.


Lemma find_class_by_name_resolved (name : string) (modules : list module) :
  resolves name modules = true ->
  exists o, find_class_by_name name modules = Ok o.
Proof.
  intros Hres. destruct (find_class_by_name name modules) as [o|e] eqn:E;
    [now exists o|].
  apply next_truthy_raise in E as [_ E]. unfold resolves in Hres.
  congruence.
Qed.

End RegistryFacts.

Section AbortFacts.
Context `{Runtime} `{Registry.Modules}.
Variable f : FLAGS.t.

Lemma outcome_bind_lift {A B} (r : result A) (k : A -> M B) (s : FS) :
  outcome ((lift r ≫= k) s)
  = match r with Ok a => outcome (k a s) | Raise e => Raise e end.
Proof.
  unfold mbind, M_bind, bind, lift. destruct r as [a|e]; [|reflexivity].
  now destruct (k a s) as [[r s1] t1].
Qed.

Lemma outcome_bind_attempt {B} (o : option exn) (k : unit -> M B) (s : FS) :
  outcome ((attempt o ≫= k) s)
  = match o with None => outcome (k tt s) | Some e => Raise e end.
Proof.
  unfold mbind, M_bind, bind, attempt. destruct o as [e|]; [reflexivity|].
  simpl. now destruct (k tt s) as [[r s1] t1].
Qed.

Lemma outcome_bind_emit {B} (e : event) (k : unit -> M B) (s : FS) :
  outcome ((emit e ≫= k) s) = outcome (k tt s).
Proof.
  unfold mbind, M_bind, bind, emit. now destruct (k tt s) as [[r s1] t1].
Qed.

Lemma outcome_bind_read {A B} (g : FS -> A) (k : A -> M B) (s : FS) :
  outcome (((fun s => (Ok (g s), s, [])) ≫= k) s) = outcome (k (g s) s).
Proof.
  unfold mbind, M_bind, bind. now destruct (k (g s) s) as [[r s1] t1].
Qed.

Lemma raises_bind_l {A B} (c : M A) (k : A -> M B) (s : FS) :
  raises (outcome (c s)) = true -> raises (outcome ((c ≫= k) s)) = true.
Proof.
  unfold mbind, M_bind, bind. destruct (c s) as [[[a|e] s1] t1];
    [discriminate|reflexivity].
Qed.

(** Follows [build_model] through its lookups and constructor calls;
    the branches that raise are closed. *)
Ltac next_call :=
  first [ rewrite outcome_bind_lift | rewrite outcome_bind_attempt ];
  match goal with
  | |- context [match ?x with _ => _ end] => destruct x eqn:?
  end; try reflexivity.

Lemma startup_no_session_run (self : Trainer.t) (b : bool) (s : FS) :
  forallb (fun e => negb (is_session_run e))
          (events (Trainer.startup f self b s)) = true.
Proof.
  apply (forallb_impl (startup_event b)); [|apply startup_sat].
  intros []; simpl; try reflexivity; discriminate.
Qed.

(** A run whose start raises is over before its first session run. *)
Lemma run_aborted (self : Trainer.t) (b : bool) (s : FS) (fuel : nat) :
  raises (outcome (Trainer.startup f self b s)) = true ->
  exists e,
    outcome (Trainer.run f fuel self b s) = Some (Raise e) /\
    forallb (fun e => negb (is_session_run e))
            (events (Trainer.run f fuel self b s)) = true.
Proof.
  intros Hraise. pose proof (startup_no_session_run self b s) as Hev.
  unfold Trainer.run.
  destruct (Trainer.startup f self b s) as [[[u|e] s1] t1];
    [discriminate|].
  exists e. split; [reflexivity|exact Hev].
Qed.

Lemma startup_aborts (self : Trainer.t) (b : bool) (s : FS) :
  raises (outcome (Trainer.build_model f self
                     (state (Trainer.resume self b s)))) = true ->
  raises (outcome (Trainer.startup f self b s)) = true.
Proof.
  unfold Trainer.startup, mbind, M_bind, bind.
  destruct (Trainer.resume self b s) as [[[ck|e] s1] t1]; [|reflexivity].
  unfold state, outcome. cbn [fst snd].
  destruct (Trainer.build_model f self s1) as [[[u|e] s2] t2];
    [discriminate|reflexivity].
Qed.

Lemma build_model_no_files (self : Trainer.t) (s : FS) :
  Glob s (FLAGS.train_data_pattern f) = [] ->
  raises (outcome (Trainer.build_model f self s)) = true.
Proof.
  intros Hglob. unfold Trainer.build_model. repeat next_call.
  apply raises_bind_l. unfold Trainer.build_graph. next_call.
  apply raises_bind_l. unfold Trainer.get_input_data_tensors, logging_info.
  now rewrite outcome_bind_emit, outcome_bind_read, Hglob.
Qed.


(** C7.  When the pattern of the training data matches no file, the
    input pipeline raises [IOError], and the run of the trainer ends
    with an exception before its first session run. *)
Theorem no_training_files_abort (self : Trainer.t) (b : bool) (s : FS)
    (fuel : nat) :
  (forall data_pattern batch_size s1,
     Glob s1 data_pattern = [] ->
     outcome (Trainer.get_input_data_tensors data_pattern batch_size s1)
     = Raise (IOError ("Unable to find training files. data_pattern='"
                       +:+ data_pattern +:+ "'."))) /\
  (Glob (state (Trainer.resume self b s)) (FLAGS.train_data_pattern f) = [] ->
   exists e,
     outcome (Trainer.run f fuel self b s) = Some (Raise e) /\
     forallb (fun e => negb (is_session_run e))
             (events (Trainer.run f fuel self b s)) = true).
Proof.
  split.
  - intros pat bs s1 Hglob.
    unfold Trainer.get_input_data_tensors, logging_info.
    now rewrite outcome_bind_emit, outcome_bind_read, Hglob.
  - intros Hglob. apply run_aborted, startup_aborts.
    now apply build_model_no_files.
Qed.

End AbortFacts.

Lemma report_iff_master_witness :
  Trainer.iteration (H := Examples.runtime 2) Examples.base_flags
    Examples.worker 1 (Examples.step_values 1) = (Ok tt, [SessionRun 1]) /\
  existsb is_report
    (snd (Trainer.iteration (H := Examples.runtime 2) Examples.base_flags
            Examples.master 1 (Examples.step_values 1))) = true /\
  Trainer.training_loop (H := zero_clock_runtime) Examples.base_flags 10
    Examples.master 0
  = (Some (Raise (ZeroDivisionError "float division by zero")),
     [SessionRun 1]).
Proof.
  pose proof (report_iff_master (H := Examples.runtime 2)
                (H0 := Examples.modules) Examples.base_flags Examples.worker)
    as (_ & _ & _ & _ & Hworker).
  pose proof (report_iff_master (H := Examples.runtime 2)
                (H0 := Examples.modules) Examples.base_flags Examples.master)
    as (_ & Hmaster & _).
  pose proof (report_iff_master (H := zero_clock_runtime)
                (H0 := Examples.modules) Examples.base_flags Examples.master)
    as (_ & _ & _ & Hzero & _).
  split; [|split].
  - apply (proj1 (Hworker eq_refl)).
  - apply Hmaster.
  - apply (Hzero eq_refl 9%nat 0%nat (Examples.step_values 1));
      reflexivity.
Defined.

Lemma no_training_files_abort_witness :
  exists e,
    outcome (Trainer.run (H := Examples.runtime 2) (H0 := Examples.modules)
               (Examples.flags_of "missing.tfrecord" "LogisticModel" false
                  None 0 0 false)
               10 Examples.master false ["train.tfrecord"])
    = Some (Raise e).
Proof.
  destruct (proj2 (no_training_files_abort (H := Examples.runtime 2)
                     (H0 := Examples.modules)
                     (Examples.flags_of "missing.tfrecord" "LogisticModel"
                        false None 0 0 false)
                     Examples.master false ["train.tfrecord"] 10) eq_refl)
    as (e & He & _).
  exists e. exact He.
Defined.



(** ** How the loop ends *)

Section TerminationFacts.
Context `{Runtime} `{Registry.Modules}.
Variable f : FLAGS.t.
Variable self : Trainer.t.

Lemma session_runs_app (a b : list event) :
  session_runs (a ++ b) = (session_runs a + session_runs b)%nat.
Proof. unfold session_runs. now rewrite List.filter_app, length_app. Qed.

Lemma session_runs_iteration (steps : nat) (v : StepValues) :
  session_runs (snd (Trainer.iteration f self steps v)) = 1%nat.
Proof.
  rewrite iteration_unfold. destruct (Trainer.is_master self);
    [|reflexivity].
  rewrite report_unfold.
  destruct (Qeq_bool (seconds_per_batch steps) 0); reflexivity.
Qed.

Lemma iteration_raises (steps : nat) (v : StepValues) (e : exn) :
  fst (Trainer.iteration f self steps v) = Raise e ->
  e = ZeroDivisionError "float division by zero"
  /\ Trainer.is_master self = true
  /\ Qeq_bool (seconds_per_batch steps) 0 = true
  /\ snd (Trainer.iteration f self steps v) = [SessionRun steps].
Proof.
  rewrite iteration_unfold. destruct (Trainer.is_master self);
    [|discriminate].
  rewrite report_unfold.
  destruct (Qeq_bool (seconds_per_batch steps) 0); [|discriminate].
  cbn [fst snd]. intros [= <-]. repeat split.
Qed.

Lemma session_runs_none (t : list event) :
  forallb (fun e => negb (is_session_run e)) t = true -> session_runs t = 0%nat.
Proof.
  unfold session_runs. induction t as [|e t IH]; simpl; [reflexivity|].
  intros [He Ht]%andb_true_iff. apply negb_true_iff in He. rewrite He.
  now apply IH.
Qed.

Lemma training_loop_plain (k : nat) :
  forall from fuel,
    Trainer.plain_passes f self from k ->
    exists pre,
      Trainer.training_loop f (k + fuel) self from
      = (fst (Trainer.training_loop f fuel self (from + k)),
         pre ++ snd (Trainer.training_loop f fuel self (from + k))) /\
      session_runs pre = k.
Proof.
  induction k as [|k IH]; intros from fuel Hplain.
  - exists []. rewrite Nat.add_0_r. simpl.
    now destruct (Trainer.training_loop f fuel self from).
  - assert (Hfrom : (from <= from < from + S k)%nat) by lia.
    destruct (Hplain from Hfrom) as (Hstop & (v & Hv & Hit) & Hmax).
    destruct (IH (S from) fuel) as (pre & Hpre & Hcount).
    { intros i Hi. apply Hplain. lia. }
    exists (snd (Trainer.iteration f self (S from) v) ++ pre).
    change (S k + fuel)%nat with (S (k + fuel)).
    rewrite training_loop_S, Hstop, Hv, Hit, Hmax, Hpre.
    replace (from + S k)%nat with (S from + k)%nat by lia. cbn [fst snd].
    rewrite <- app_assoc. split; [reflexivity|].
    rewrite session_runs_app, session_runs_iteration, Hcount. reflexivity.
Qed.

Lemma training_loop_break (n fuel : nat) (v : StepValues) :
  Trainer.plain_passes f self 0 n -> should_stop n = false ->
  (n < fuel)%nat ->
  session_run (S n) = Ok v ->
  fst (Trainer.iteration f self (S n) v) = Ok tt ->
  Trainer.max_steps_exceeded f (S n) = true ->
  exists pre,
    Trainer.training_loop f fuel self 0
    = (Some (Ok tt),
       pre ++ [Logging INFO (task_as_string (Trainer.task self)
                 +:+ ": Done training -- max_steps limit reached.")]) /\
    session_runs pre = S n.
Proof.
  intros Hplain Hstop Hfuel Hv Hit Hmax.
  replace fuel with (n + S (fuel - n - 1))%nat by lia.
  destruct (training_loop_plain n 0 (S (fuel - n - 1)) Hplain)
    as (pre & -> & Hcount).
  cbn [Nat.add]. rewrite training_loop_S, Hstop, Hv, Hit, Hmax.
  cbn [fst snd].
  exists (pre ++ snd (Trainer.iteration f self (S n) v)).
  rewrite <- app_assoc. split; [reflexivity|].
  rewrite session_runs_app, session_runs_iteration, Hcount. lia.
Qed.

Lemma training_loop_raise (n fuel : nat) (e : exn) :
  Trainer.plain_passes f self 0 n -> should_stop n = false ->
  (n < fuel)%nat ->
  session_run (S n) = Raise e ->
  exists pre,
    Trainer.training_loop f fuel self 0 = (Some (Raise e), pre) /\
    session_runs pre = S n.
Proof.
  intros Hplain Hstop Hfuel He.
  replace fuel with (n + S (fuel - n - 1))%nat by lia.
  destruct (training_loop_plain n 0 (S (fuel - n - 1)) Hplain)
    as (pre & -> & Hcount).
  cbn [Nat.add]. rewrite training_loop_S, Hstop, He. cbn [fst snd].
  exists (pre ++ [SessionRun (S n)]). split; [reflexivity|].
  rewrite session_runs_app, Hcount.
  change (session_runs [SessionRun (S n)]) with 1%nat. lia.
Qed.

Lemma training_loop_report_raise (n fuel : nat) (v : StepValues) (e : exn) :
  Trainer.plain_passes f self 0 n -> should_stop n = false ->
  (n < fuel)%nat ->
  session_run (S n) = Ok v ->
  fst (Trainer.iteration f self (S n) v) = Raise e ->
  exists pre,
    Trainer.training_loop f fuel self 0 = (Some (Raise e), pre) /\
    session_runs pre = S n.
Proof.
  intros Hplain Hstop Hfuel Hv He.
  replace fuel with (n + S (fuel - n - 1))%nat by lia.
  destruct (training_loop_plain n 0 (S (fuel - n - 1)) Hplain)
    as (pre & -> & Hcount).
  cbn [Nat.add]. rewrite training_loop_S, Hstop, Hv, He. cbn [fst snd].
  exists (pre ++ snd (Trainer.iteration f self (S n) v)).
  split; [reflexivity|].
  rewrite session_runs_app, session_runs_iteration, Hcount. lia.
Qed.

(** C9.  Once the run has reached the loop and [n] passes have gone
    by, each with a session run that returned and, on the master, a
    report that raised nothing: a pass that exceeds the configured
    [max_steps] breaks out of the loop, and a session run that raises
    [OutOfRangeError] ends it; in both cases [run] returns without an
    exception after logging the reason and the exit at the level INFO
    and stopping the supervisor.  Any other exception of the session
    run leaves [run] as that exception, and so does the
    [ZeroDivisionError] of the master's report when the measured time
    of the pass is zero.  With [max_steps = m] the loop breaks in the
    pass whose count exceeds [m], after [m + 1] session runs. *)
Theorem training_loop_graceful_exit (b : bool) (s : FS) (n fuel : nat) :
  outcome (Trainer.startup f self b s) = Ok tt ->
  Trainer.plain_passes f self 0 n -> should_stop n = false ->
  (n < fuel)%nat ->
  let ran := Trainer.run f fuel self b s in
  let name := task_as_string (Trainer.task self) in
  ((exists v, session_run (S n) = Ok v
              /\ fst (Trainer.iteration f self (S n) v) = Ok tt) ->
   Trainer.max_steps_exceeded f (S n) = true ->
   outcome ran = Some (Ok tt) /\
   session_runs (events ran) = S n /\
   (exists t,
      events ran
      = t ++ [Logging INFO
                (name +:+ ": Done training -- max_steps limit reached.");
              Logging INFO (name +:+ ": Exited training loop.");
              SupervisorStop]) /\
   (forall m, FLAGS.max_steps f = Some m -> 0 <= m -> n = Z.to_nat m)) /\
  (session_run (S n) = Raise OutOfRangeError ->
   outcome ran = Some (Ok tt) /\
   (exists t,
      events ran
      = t ++ [Logging INFO
                (name +:+ ": Done training -- epoch limit reached.");
              Logging INFO (name +:+ ": Exited training loop.");
              SupervisorStop])) /\
  (forall e, session_run (S n) = Raise e -> e <> OutOfRangeError ->
   outcome ran = Some (Raise e)) /\
  (forall v, session_run (S n) = Ok v ->
   Trainer.is_master self = true ->
   Qeq_bool (seconds_per_batch (S n)) 0 = true ->
   outcome ran = Some (Raise (ZeroDivisionError "float division by zero"))
   /\ session_runs (events ran) = S n).
Proof.
  intros Hstart Hplain Hstop Hfuel ran name.
  pose proof (startup_no_session_run f self b s) as Hquiet.
  apply session_runs_none in Hquiet.
  subst ran. unfold Trainer.run.
  destruct (Trainer.startup f self b s) as [[[[]|e0] s1] t1];
    [|discriminate]. clear Hstart. unfold events in Hquiet. cbn [snd] in Hquiet.
  split; [|split; [|split]].
  - intros (v & Hv & Hit) Hmax.
    destruct (training_loop_break n fuel v Hplain Hstop Hfuel Hv Hit Hmax)
      as (pre & -> & Hcount).
    unfold outcome, events. cbn [fst snd]. split; [reflexivity|].
    split; [|split].
    + change (?a :: ?l) with ([a] ++ l).
      rewrite !session_runs_app, Hquiet, Hcount. cbn. lia.
    + exists (t1 ++ Logging INFO (name +:+ ": Entering training loop.")
                 :: pre).
      rewrite <- !app_assoc. reflexivity.
    + intros m Hm Hpos. unfold Trainer.max_steps_exceeded in Hmax.
      rewrite Hm in Hmax. apply Z.gtb_lt in Hmax.
      destruct n as [|n']; [lia|].
      assert (Hi : (0 <= n' < 0 + S n')%nat) by lia.
      destruct (Hplain n' Hi) as (_ & _ & Hlast).
      unfold Trainer.max_steps_exceeded in Hlast. rewrite Hm in Hlast.
      destruct (Z.gtb_spec (Z.of_nat (S n')) m); [discriminate|]. lia.
  - intros He.
    destruct (training_loop_raise n fuel _ Hplain Hstop Hfuel He)
      as (pre & -> & Hcount).
    unfold outcome, events. cbn [fst snd]. split; [reflexivity|].
    exists (t1 ++ Logging INFO (name +:+ ": Entering training loop.")
               :: pre).
    rewrite <- !app_assoc. reflexivity.
  - intros e He Hne.
    destruct (training_loop_raise n fuel _ Hplain Hstop Hfuel He)
      as (pre & -> & Hcount).
    destruct e; try reflexivity. now destruct Hne.
  - intros v Hv Hmaster Hclock.
    assert (Hit : fst (Trainer.iteration f self (S n) v)
                  = Raise (ZeroDivisionError "float division by zero")).
    { rewrite iteration_unfold, Hmaster, report_unfold, Hclock.
      reflexivity. }
    destruct (training_loop_report_raise n fuel v _ Hplain Hstop Hfuel Hv
                Hit) as (pre & -> & Hcount).
    unfold outcome, events. cbn [fst snd]. split; [reflexivity|].
    change (?a :: ?l) with ([a] ++ l).
    rewrite !session_runs_app, Hquiet, Hcount. cbn. lia.
Qed.
End TerminationFacts.

Lemma training_loop_graceful_exit_witness :
  let ran :=
    Trainer.run (H := Examples.runtime 2) (H0 := Examples.modules)
      (Examples.flags_of "train.tfrecord" "LogisticModel" false (Some 1)
         0 0 false)
      10 Examples.master false ["train.tfrecord"] in
  outcome ran = Some (Ok tt) /\ session_runs (events ran) = 2%nat.
Proof.
  assert (Hplain : Trainer.plain_passes (H := Examples.runtime 2)
            (Examples.flags_of "train.tfrecord" "LogisticModel" false
               (Some 1) 0 0 false) Examples.master 0 1).
  { intros i Hi. assert (i = 0%nat) as -> by lia.
    split; [reflexivity|]. split; [|reflexivity].
    eexists. split; reflexivity. }
  destruct (training_loop_graceful_exit (H := Examples.runtime 2)
              (H0 := Examples.modules)
              (Examples.flags_of "train.tfrecord" "LogisticModel" false
                 (Some 1) 0 0 false)
              Examples.master false ["train.tfrecord"] 1 10
              eq_refl Hplain eq_refl ltac:(lia)) as (Hbreak & _ & _).
  destruct Hbreak as (Hout & Hruns & _).
  - eexists. split; reflexivity.
  - reflexivity.
  - split; [exact Hout|exact Hruns].
Defined.

(** * Further properties of the graph *)

Section HybridLabelFacts.
Import Graph.
Local Open Scope Q_scope.

Lemma clip_by_value_bounds (x : Q) :
  0 <= clip_by_value x 0 1 /\ clip_by_value x 0 1 <= 1.
Proof.
  unfold clip_by_value. split.
  - apply Q.min_glb; [apply Q.le_max_r|discriminate].
  - apply Q.le_min_r.
Qed.

Lemma clip_by_value_above (l x : Q) :
  l <= 1 -> l <= x -> l <= clip_by_value x 0 1.
Proof.
  intros Hl Hx. unfold clip_by_value. apply Q.min_glb; [|exact Hl].
  apply Qle_trans with x; [exact Hx|apply Q.le_max_l].
Qed.

Lemma clip_by_value_unit (b : bool) :
  clip_by_value (cast_float32 b) 0 1 == cast_float32 b.
Proof. destruct b; reflexivity. Qed.

Lemma reform_row_length (p : Q) (l : list bool) (d : Row) :
  length (reform_row p l d) = Nat.min (length l) (length d).
Proof.
  unfold reform_row. rewrite length_map.
  generalize (reduce_sum (map cast_float32 l) / (reduce_sum d + epsilon) * p).
  intros k. revert d. induction l as [|b l IH]; intros [|x d]; simpl;
    try reflexivity.
  now rewrite IH.
Qed.

Lemma reform_row_bounds (p : Q) (l : list bool) (d : Row) :
  Forall (fun y => 0 <= y /\ y <= 1) (reform_row p l d).
Proof.
  unfold reform_row. apply Forall_map, Forall_forall.
  intros x _. apply clip_by_value_bounds.
Qed.

Lemma reduce_sum_nonneg (r : Row) : Forall (fun x => 0 <= x) r -> 0 <= reduce_sum r.
Proof.
  induction 1 as [|x r Hx _ IH]; simpl; [discriminate|].
  exact (Qplus_le_compat 0 x 0 (reduce_sum r) Hx IH).
Qed.

Lemma cast_float32_unit (b : bool) : 0 <= cast_float32 b /\ cast_float32 b <= 1.
Proof. destruct b; split; discriminate. Qed.

Lemma scale_add_clip_zero (l : list bool) (d : Row) :
  length l = length d -> row_eq (scale_add_clip 0 l d) (map cast_float32 l).
Proof.
  unfold scale_add_clip, row_eq. revert d.
  induction l as [|b l IH]; intros [|x d] Hlen; try discriminate Hlen;
    simpl; constructor.
  - rewrite <- (clip_by_value_unit b) at 2. apply clip_by_value_wd. ring.
  - apply IH. now injection Hlen.
Qed.

Lemma scale_add_clip_dominates (k : Q) (l : list bool) (d : Row) :
  0 <= k -> Forall (fun x => 0 <= x) d -> length l = length d ->
  Forall2 Qle (map cast_float32 l) (scale_add_clip k l d).
Proof.
  intros Hk Hd. unfold scale_add_clip. revert l.
  induction Hd as [|x d Hx _ IH]; intros [|b l] Hlen; try discriminate Hlen;
    simpl; constructor.
  - apply clip_by_value_above; [apply cast_float32_unit|].
    rewrite <- (Qplus_0_r (cast_float32 b)) at 1.
    apply Qplus_le_compat; [apply Qle_refl|].
    now apply Qmult_le_0_compat.
  - apply IH. now injection Hlen.
Qed.

(** X1.  In the blend mode, on a batch of labels and a batch of
    distilled labels of one shape, every entry of the reshaped distilled
    labels lies in [[0,1]], for every [p], and the result has the shape
    of the labels: as many rows, each as wide as the row of labels it
    comes from. *)
Theorem blend_labels_in_unit_interval (f : FLAGS.t) (L : list (list bool))
    (D : Tensor) :
  FLAGS.distillation_features f = true ->
  FLAGS.distillation_type f = 2%Z ->
  Forall2 (fun l d => length l = length d) L D ->
  Forall (Forall (fun y => 0 <= y /\ y <= 1)) (distill_labels f L D) /\
  Forall2 (fun r l => length r = length l) (distill_labels f L D) L.
Proof.
  intros Hfeat Htype Hshape. unfold distill_labels.
  rewrite Hfeat, Htype. simpl.
  induction Hshape as [|l d L D Hlen _ [IHb IHw]]; simpl.
  - split; constructor.
  - split; constructor; try assumption.
    + apply reform_row_bounds.
    + rewrite reform_row_length, <- Hlen. apply Nat.min_id.
Qed.

Lemma blend_labels_in_unit_interval_witness :
  Forall (Forall (fun y => 0 <= y /\ y <= 1))
         (distill_labels Examples.blend_flags [[true; true; false]]
            [[1 # 4; 1 # 4; 1 # 2]]) /\
  Forall2 (fun r l => length r = length l)
          (distill_labels Examples.blend_flags [[true; true; false]]
             [[1 # 4; 1 # 4; 1 # 2]])
          [[true; true; false]].
Proof.
  apply (blend_labels_in_unit_interval Examples.blend_flags
           [[true; true; false]] [[1 # 4; 1 # 4; 1 # 2]]
           eq_refl eq_refl).
  repeat constructor.
Defined.

(** X2.  With [p = 0] the reshaping gives the ground-truth labels back:
    a row of hybrid labels equals the row of the labels cast to float,
    whatever the distilled row of the same width holds. *)
Theorem blend_percent_zero (p : Q) (l : list bool) (d : Row) :
  p == 0 -> length l = length d ->
  row_eq (reform_row p l d) (map cast_float32 l).
Proof.
  intros Hp Hlen.
  change (reform_row p l d)
    with (scale_add_clip (reduce_sum (map cast_float32 l)
                          / (reduce_sum d + epsilon) * p) l d).
  unfold row_eq.
  assert (Hstep : row_eq (scale_add_clip (reduce_sum (map cast_float32 l)
                            / (reduce_sum d + epsilon) * p) l d)
                         (scale_add_clip 0 l d)).
  { apply scale_add_clip_wd. rewrite Hp. ring. }
  pose proof (scale_add_clip_zero l d Hlen) as Hzero.
  unfold row_eq in *. revert Hstep Hzero.
  generalize (scale_add_clip (reduce_sum (map cast_float32 l)
                / (reduce_sum d + epsilon) * p) l d) as a.
  generalize (scale_add_clip 0 l d) as b.
  generalize (map cast_float32 l) as c.
  intros c b a Hab. revert c.
  induction Hab as [|x y a b Hxy _ IH]; intros c Hbc; inversion Hbc; subst;
    constructor.
  - now rewrite Hxy.
  - now apply IH.
Qed.

Lemma blend_percent_zero_witness :
  row_eq (reform_row 0 [true; false] [1 # 3; 2 # 3]) [1; 0].
Proof.
  exact (blend_percent_zero 0 [true; false] [1 # 3; 2 # 3]
           ltac:(reflexivity) eq_refl).
Defined.

(** X3.  The reshaping never lowers a label: with [p >= 0] and distilled
    entries that are not negative, every hybrid label is at least the
    ground-truth label of its place, so a positive label stays at 1. *)
Theorem blend_keeps_labels (p : Q) (l : list bool) (d : Row) :
  0 <= p -> Forall (fun x => 0 <= x) d -> length l = length d ->
  Forall2 Qle (map cast_float32 l) (reform_row p l d).
Proof.
  intros Hp Hd Hlen.
  change (reform_row p l d)
    with (scale_add_clip (reduce_sum (map cast_float32 l)
                          / (reduce_sum d + epsilon) * p) l d).
  apply scale_add_clip_dominates; [|exact Hd|exact Hlen].
  apply Qmult_le_0_compat; [|exact Hp].
  unfold Qdiv. apply Qmult_le_0_compat.
  - apply reduce_sum_nonneg. apply Forall_map, Forall_forall.
    intros b _. apply cast_float32_unit.
  - apply Qinv_le_0_compat.
    refine (Qplus_le_compat 0 (reduce_sum d) 0 epsilon _ _);
      [now apply reduce_sum_nonneg|discriminate].
Qed.

Lemma blend_keeps_labels_witness :
  Forall2 Qle [1; 0] (reform_row (1 # 2) [true; false] [1 # 3; 2 # 3]).
Proof.
  apply (blend_keeps_labels (1 # 2) [true; false] [1 # 3; 2 # 3]).
  - discriminate.
  - repeat constructor; discriminate.
  - reflexivity.
Defined.
End HybridLabelFacts.

Section LossFacts.
Import Graph Loss.
Context `{LossFn}.
Local Open Scope Q_scope.


(** X4.  When the computation of the label loss raises, and what: the
    [KeyError] of [result["predictions"]] when the model result has no
    predictions; what [get_video_weights] raised, when the result has no
    loss of its own and [reweight] is set; and, when neither is the case
    and the result has no loss of its own, the [KeyError] of the support
    predictions that a [multitask] run reads and the result lacks.  It
    raises in no other case, whatever the distillation flags are, the
    losses themselves taken to return. *)
Theorem label_loss_raises (f : FLAGS.t)
    (augment_labels : list (list bool) -> list (list bool))
    (res : ModelDict) (L : list (list bool)) (D : Tensor)
    (get_video_weights : result Row) (e : exn) :
  build_graph_label_loss f augment_labels res L D get_video_weights
  = Raise e <->
  (dict_predictions res = None /\ e = KeyError "predictions")
  \/ (is_Some (dict_predictions res) /\ dict_loss res = None
      /\ FLAGS.reweight f = true /\ get_video_weights = Raise e)
  \/ (is_Some (dict_predictions res) /\ dict_loss res = None
      /\ (FLAGS.reweight f = true -> exists w, get_video_weights = Ok w)
      /\ FLAGS.multitask f = true /\ dict_support_predictions res = None
      /\ e = KeyError "support_predictions").
Proof.
  unfold build_graph_label_loss. cbv zeta.
  destruct (dict_predictions res) as [preds|] eqn:Hpreds.
  2:{ split.
      - intros [= <-]. now left.
      - intros [[_ ->] | [([? ?] & _) | ([? ?] & _)]];
          [reflexivity|discriminate..]. }
  destruct (dict_loss res) as [l|] eqn:Hloss.
  { split; [discriminate|].
    intros [[? _] | [(_ & ? & _) | (_ & ? & _)]]; discriminate. }
  assert (Hlabel : forall L' D' w,
            label_loss f
              {| predictions := preds; loss := None;
                 support_predictions := dict_support_predictions res;
                 regularization_loss := dict_regularization_loss res |}
              L' D' w = Raise e <->
            FLAGS.multitask f = true
            /\ dict_support_predictions res = None
            /\ e = KeyError "support_predictions").
  { intros L' D' w. unfold label_loss. cbn [loss support_predictions].
    destruct (FLAGS.multitask f).
    - destruct (dict_support_predictions res) as [sp|].
      + repeat match goal with
        | |- context [if ?c then _ else _] => destruct c
        end; (split; [discriminate|now intros (_ & ? & _)]).
      + split; [intros [= <-]; now repeat split|now intros (_ & _ & ->)].
    - repeat match goal with
      | |- context [if ?c then _ else _] => destruct c
      end; (split; [discriminate|now intros (? & _)]). }
  destruct (FLAGS.reweight f) eqn:Hrw.
  - destruct get_video_weights as [w|e0].
    + rewrite Hlabel. split.
      * intros (Hm & Hs & ->). right. right.
        repeat split; try assumption; now eexists.
      * intros [[? _] | [(_ & _ & _ & ?) | (_ & _ & _ & Hm & Hs & ->)]];
          try discriminate. now repeat split.
    + split.
      * intros [= <-]. right. left. repeat split. now eexists.
      * intros [[? _] | [(_ & _ & _ & He) | (_ & _ & Hw & _)]];
          try discriminate.
        -- now injection He as ->.
        -- destruct (Hw eq_refl) as [w ?]. discriminate.
  - rewrite Hlabel. split.
    + intros (Hm & Hs & ->). right. right.
      repeat split; try assumption; try discriminate; now eexists.
    + intros [[? _] | [(_ & _ & ? & _) | (_ & _ & _ & Hm & Hs & ->)]];
        try discriminate. now repeat split.
Qed.


(** X6.  The final loss is the label loss plus the penalty times the
    regularization loss of the model, zero when the model gives none,
    plus the collected regularization losses; so it is the label loss
    itself when nothing regularizes, and when the penalty is zero. *)
Theorem final_loss_defaults (regularization_penalty : Q) (res : ModelResult)
    (reg_losses : list Q) (label_loss : Q) :
  final_loss regularization_penalty res reg_losses label_loss
  == regularization_penalty
     * (default 0 (regularization_loss res) + add_n reg_losses)
     + label_loss /\
  (regularization_loss res = None -> reg_losses = [] ->
   final_loss regularization_penalty res reg_losses label_loss
   == label_loss) /\
  (regularization_penalty == 0 ->
   final_loss regularization_penalty res reg_losses label_loss
   == label_loss).
Proof.
  assert (Hgen : final_loss regularization_penalty res reg_losses label_loss
                 == regularization_penalty
                    * (default 0 (regularization_loss res) + add_n reg_losses)
                    + label_loss).
  { unfold final_loss.
    destruct (regularization_loss res) as [r|], reg_losses as [|x regs];
      simpl; ring. }
  split; [exact Hgen|split].
  - intros Hnone ->. rewrite Hgen, Hnone. simpl. ring.
  - intros Hpen. rewrite Hgen, Hpen. ring.
Qed.
End LossFacts.

Lemma label_loss_raises_witness :
  Graph.build_graph_label_loss (H := Examples.mass_loss)
    Examples.reweight_flags id
    {| Graph.dict_predictions := Some [[1 # 2]];
       Graph.dict_loss := None;
       Graph.dict_support_predictions := None;
       Graph.dict_regularization_loss := None |}
    [[true; false]] [[1 # 2; 1 # 4]]
    (Raise (IOError "No such file or directory"))
  = Raise (IOError "No such file or directory").
Proof.
  apply (proj2 (label_loss_raises (H := Examples.mass_loss)
                  Examples.reweight_flags id
                  {| Graph.dict_predictions := Some [[1 # 2]];
                     Graph.dict_loss := None;
                     Graph.dict_support_predictions := None;
                     Graph.dict_regularization_loss := None |}
                  [[true; false]] [[1 # 2; 1 # 4]]
                  (Raise (IOError "No such file or directory"))
                  (IOError "No such file or directory"))).
  right. left. repeat split. now eexists.
Defined.


Lemma final_loss_defaults_witness :
  (Loss.final_loss (3 # 1) Examples.plain_result [] (1 # 2) == 1 # 2)%Q.
Proof.
  exact (proj1 (proj2 (final_loss_defaults (3 # 1) Examples.plain_result []
                         (1 # 2))) eq_refl eq_refl).
Defined.

(** * Further properties of the lookup of classes *)

Section LookupFacts.
Import Registry.

(** X7.  [find_class_by_name] returns the attribute of the first module,
    in the order of the list, whose attribute of that name is true; the
    modules behind it are not looked at, so a name defined among the
    frame-level models hides the same name among the video-level
    models. *)
Theorem find_class_by_name_first (name : string) (modules : list module)
    (o : pyobj) :
  find_class_by_name name modules = Ok o <->
  exists (i : nat) (m : module),
    modules !! i = Some m /\ getattr m name = Some o /\
    truthy (Some o) = true /\
    forall (j : nat) (m' : module),
      (j < i)%nat -> modules !! j = Some m' ->
      truthy (getattr m' name) = false.
Proof.
  unfold find_class_by_name. induction modules as [|m0 modules IH]; simpl.
  - split; [discriminate|]. intros (i & m & Hm & _). destruct i; discriminate.
  - split.
    + destruct (getattr m0 name) as [o0|] eqn:Hget.
      * destruct (truthy (Some o0)) eqn:Htrue.
        -- intros [= <-]. exists 0%nat, m0. repeat split; try assumption.
           intros j m' Hj. lia.
        -- intros Hrest. apply IH in Hrest as (i & m & Hm & Ho & Ht & Hbefore).
           exists (S i), m. repeat split; try assumption.
           intros [|j] m' Hj Hm'; simpl in Hm'.
           ++ injection Hm' as <-. now rewrite Hget.
           ++ apply (Hbefore j m'); [lia|exact Hm'].
      * intros Hrest. apply IH in Hrest as (i & m & Hm & Ho & Ht & Hbefore).
        exists (S i), m. repeat split; try assumption.
        intros [|j] m' Hj Hm'; simpl in Hm'.
        -- injection Hm' as <-. now rewrite Hget.
        -- apply (Hbefore j m'); [lia|exact Hm'].
    + intros ([|i] & m & Hm & Ho & Ht & Hbefore); simpl in Hm.
      * injection Hm as <-. rewrite Ho.
        destruct o as [?|[|]]; simpl in *; try reflexivity; discriminate.
      * assert (H0 : truthy (getattr m0 name) = false).
        { apply (Hbefore 0%nat m0); [lia|reflexivity]. }
        assert (Hrest : next_truthy (map (fun m => getattr m name) modules)
                        = Ok o).
        { apply IH. exists i, m. repeat split; try assumption.
          intros j m' Hj Hm'. apply (Hbefore (S j) m'); [lia|exact Hm']. }
        destruct (getattr m0 name) as [[?|[|]]|]; simpl in *;
          try discriminate; exact Hrest.
Qed.

(** X8.  [validate_class_name] returns only [True], and then the object
    that [find_class_by_name] returns for the same name and modules is a
    class with the expected superclass among its bases; when that object
    is not a class, [validate_class_name] raises the [TypeError] of
    [issubclass]. *)
Theorem validate_class_name_sound (flag_value category sup : string)
    (modules : list module) :
  (forall b,
     validate_class_name flag_value category modules sup = Ok b ->
     b = true /\
     exists n mro,
       find_class_by_name flag_value modules = Ok (PyClass n mro) /\
       In sup mro) /\
  (forall t,
     find_class_by_name flag_value modules = Ok (PyOther t) ->
     exists msg,
       validate_class_name flag_value category modules sup
       = Raise (TypeError msg)).
Proof.
  unfold validate_class_name, find_class_by_name.
  induction modules as [|m modules [IH1 IH2]]; simpl.
  - split; discriminate.
  - destruct (getattr m flag_value) as [[n0 mro0|[|]]|]; simpl.
    + split; [|discriminate].
      intros b. destruct (existsb (String.eqb sup) mro0) eqn:Hsub;
        [|discriminate].
      intros [= <-]. split; [reflexivity|]. exists n0, mro0.
      split; [reflexivity|].
      apply existsb_exists in Hsub as (x & Hin & Heq).
      apply String.eqb_eq in Heq. now subst.
    + split; [discriminate|]. intros t _. eexists. reflexivity.
    + split; assumption.
    + split; assumption.
Qed.
End LookupFacts.

Lemma find_class_by_name_first_witness :
  Registry.find_class_by_name "LogisticModel"
    [Registry.frame_level_models (Modules := Examples.modules);
     Registry.video_level_models (Modules := Examples.modules)]
  = Ok (Examples.class_of "LogisticModel" "BaseModel").
Proof.
  apply (proj2 (find_class_by_name_first "LogisticModel"
                  [Registry.frame_level_models (Modules := Examples.modules);
                   Registry.video_level_models (Modules := Examples.modules)]
                  (Examples.class_of "LogisticModel" "BaseModel"))).
  exists 1%nat, (Registry.video_level_models (Modules := Examples.modules)).
  repeat split.
  intros j m' Hj Hm'. assert (j = 0%nat) as -> by lia.
  injection Hm' as <-. reflexivity.
Defined.

Lemma validate_class_name_sound_witness :
  exists n mro,
    Registry.find_class_by_name "LogisticModel"
      [Registry.frame_level_models (Modules := Examples.modules);
       Registry.video_level_models (Modules := Examples.modules)]
    = Ok (Registry.PyClass n mro) /\ In "BaseModel" mro.
Proof.
  exact (proj2 (proj1 (validate_class_name_sound "LogisticModel" "model"
                         "BaseModel"
                         [Registry.frame_level_models
                            (Modules := Examples.modules);
                          Registry.video_level_models
                            (Modules := Examples.modules)])
                  true eq_refl)).
Defined.

(** * Further properties of the trainer *)

(** ** Rules for [moves] *)

Section MovesRules.
Context `{Runtime}.
Variable P : event -> Prop.

Lemma moves_ret {A} (Q : A -> Prop) (s : FS) (a : A) :
  Q a -> moves s s P Q (mret a).
Proof.
  intros HQ. split; [reflexivity|]. split; [constructor|].
  now intros a' [= <-].
Qed.

Lemma moves_raise {A} (Q : A -> Prop) (s : FS) (e : exn) :
  moves s s P Q (raise e).
Proof. split; [reflexivity|]. split; [constructor|]. intros a [=]. Qed.

Lemma moves_emit (Q : unit -> Prop) (s : FS) (e : event) :
  P e -> Q tt -> moves s s P Q (emit e).
Proof.
  intros HP HQ. split; [reflexivity|]. split; [now repeat constructor|].
  now intros [] _.
Qed.

Lemma moves_lift {A} (Q : A -> Prop) (s : FS) (r : result A) :
  (forall a, r = Ok a -> Q a) -> moves s s P Q (lift r).
Proof. intros HQ. split; [reflexivity|]. split; [constructor|exact HQ]. Qed.

Lemma moves_attempt (Q : unit -> Prop) (s : FS) (o : option exn) :
  Q tt -> moves s s P Q (attempt o).
Proof.
  intros HQ. destruct o; [apply moves_raise|]. now apply (moves_ret Q s tt).
Qed.

Lemma moves_read {A} (Q : A -> Prop) (s : FS) (g : FS -> A) :
  Q (g s) -> moves s s P Q (fun s => (Ok (g s), s, [])).
Proof.
  intros HQ. split; [reflexivity|]. split; [constructor|].
  now intros a [= <-].
Qed.

Lemma moves_bind {A B} (Q : A -> Prop) (R : B -> Prop) (s0 s1 : FS)
    (c : M A) (k : A -> M B) :
  moves s0 s1 P Q c -> (forall a, Q a -> moves s1 s1 P R (k a)) ->
  moves s0 s1 P R (c ≫= k).
Proof.
  intros (Hst & Hev & Hout) Hk. unfold moves, mbind, M_bind, bind.
  destruct (c s0) as [[[a|e] s'] t1]; unfold state, events, outcome in *;
    cbn [fst snd] in *; subst s'.
  - destruct (Hk a (Hout a eq_refl)) as (Hst' & Hev' & Hout').
    destruct (k a s1) as [[r s2] t2]. cbn [fst snd] in *.
    split; [exact Hst'|]. split; [|exact Hout'].
    apply Forall_app. now split.
  - split; [reflexivity|]. split; [exact Hev|]. intros a [=].
Qed.

Lemma moves_seq {A B} (R : B -> Prop) (s0 s1 : FS) (c : M A) (k : A -> M B) :
  moves s0 s1 P (fun _ => True) c -> (forall a, moves s1 s1 P R (k a)) ->
  moves s0 s1 P R (c ≫= k).
Proof. intros Hc Hk. apply (moves_bind (fun _ => True)); auto. Qed.

Lemma moves_weaken {A} (Q Q' : A -> Prop) (s0 s1 : FS) (c : M A) :
  (forall a, Q a -> Q' a) -> moves s0 s1 P Q c -> moves s0 s1 P Q' c.
Proof.
  intros HQ (Hst & Hev & Hout). split; [exact Hst|]. split; [exact Hev|].
  intros a Ha. now apply HQ, Hout.
Qed.
End MovesRules.

(** ** What [run] does before the loop *)

Ltac moves_trivial :=
  first
    [ apply moves_emit; [exact I | exact I]
    | apply moves_ret; exact I
    | apply moves_raise
    | apply moves_attempt; exact I
    | apply moves_lift; intros; exact I
    | apply moves_read; exact I ].

Ltac moves_steps :=
  repeat first [ moves_trivial | apply moves_seq; [| intros ?] ].

Section StartupDiscipline.
Context `{Runtime} `{Registry.Modules}.
Variable f : FLAGS.t.
Variable self : Trainer.t.
Variable start_new_model : bool.
Variable s : FS.

Let s1 := fs_after_resume self start_new_model s.
Let P := startup_discipline self start_new_model s.
Let any {A : Type} : A -> Prop := fun _ => True.

Lemma removal_moves :
  moves s s1 P any
    (if Trainer.is_master self && start_new_model
     then Trainer.remove_training_directory self (Trainer.train_dir self)
     else mret tt).
Proof.
  unfold s1, fs_after_resume.
  destruct (Trainer.is_master self && start_new_model) eqn:Hcond;
    [|now apply moves_ret].
  apply andb_true_iff in Hcond as [Hmaster Hnew].
  unfold moves. rewrite remove_training_directory_ok.
  unfold state, events, outcome. cbn [fst snd].
  split; [reflexivity|]. split; [|intros; exact I].
  apply Forall_app. split.
  - repeat constructor; assumption.
  - destruct (snd (DeleteRecursively s (Trainer.train_dir self)));
      repeat constructor.
Qed.

Lemma start_server_if_distributed_moves (s' : FS) :
  moves s' s' P any (Trainer.start_server_if_distributed self).
Proof.
  unfold Trainer.start_server_if_distributed, logging_info.
  destruct (cluster_truthy (Trainer.cluster self)) eqn:Hcluster;
    [|moves_trivial].
  apply moves_seq; [moves_trivial|]. intros _.
  apply moves_seq; [|intros ?; moves_trivial].
  unfold start_server. destruct (String.eqb _ _); [moves_trivial|].
  apply moves_seq; [|intros ?; moves_trivial].
  apply moves_emit; [|exact I]. repeat split. exact Hcluster.
Qed.

Lemma get_latest_checkpoint_moves :
  moves s1 s1 P
    (fun ck => forall c, ck = Some c ->
       start_new_model = false
       /\ latest_checkpoint s1 (Trainer.train_dir self) = Some c /\ c <> "")
    (Trainer.get_latest_checkpoint self start_new_model
       (Trainer.train_dir self)).
Proof.
  unfold Trainer.get_latest_checkpoint, logging_info.
  destruct start_new_model eqn:Hnew.
  - apply moves_seq; [moves_trivial|]. intros _. apply moves_ret.
    discriminate.
  - eapply moves_bind.
    + apply (moves_read P
               (fun o => o = latest_checkpoint s1 (Trainer.train_dir self))).
      reflexivity.
    + intros o ->.
      destruct (latest_checkpoint s1 (Trainer.train_dir self)) as [c|]
        eqn:Hlatest.
      * destruct (String.eqb_spec c "") as [->|Hne].
        -- apply moves_seq; [moves_trivial|]. intros _. apply moves_ret.
           discriminate.
        -- apply moves_ret. intros c' [= <-]. repeat split. exact Hne.
      * apply moves_seq; [moves_trivial|]. intros _. apply moves_ret.
        discriminate.
Qed.

Lemma build_model_moves (s' : FS) : moves s' s' P any (Trainer.build_model f self).
Proof.
  unfold Trainer.build_model, Trainer.build_graph,
    Trainer.get_input_data_tensors, logging_info.
  moves_steps.
  match goal with |- moves _ _ _ _ (match ?files with _ => _ end) =>
    destruct files end; moves_steps.
Qed.

Lemma resume_moves :
  moves s s1 P
    (fun ck => forall c, ck = Some c ->
       start_new_model = false
       /\ latest_checkpoint s1 (Trainer.train_dir self) = Some c /\ c <> "")
    (Trainer.resume self start_new_model).
Proof.
  unfold Trainer.resume.
  apply moves_seq; [apply removal_moves|]. intros _.
  apply moves_seq; [apply start_server_if_distributed_moves|]. intros _.
  apply get_latest_checkpoint_moves.
Qed.

Lemma startup_moves : moves s s1 P any (Trainer.startup f self start_new_model).
Proof.
  unfold Trainer.startup. eapply moves_bind; [apply resume_moves|].
  intros ck Hck. apply moves_seq; [apply build_model_moves|]. intros _.
  unfold logging_info. apply moves_seq; [moves_trivial|]. intros _.
  apply moves_seq.
  - destruct ck as [c|]; [|moves_trivial].
    unfold Trainer.saver_restore, moves, state, events, outcome.
    assert (HP : P (SaverRestore c)) by now apply Hck.
    destruct (restore s1 c); cbn [fst snd];
      (split; [reflexivity|split; [|intros; exact I]]);
      (constructor; [exact HP|constructor]).
  - intros _. destruct (FLAGS.reweight f); moves_trivial.
Qed.
End StartupDiscipline.

(** ** The shape of a run *)

Section RunShape.
Context `{Runtime} `{Registry.Modules}.
Variable f : FLAGS.t.
Variable self : Trainer.t.

Lemma run_shape (fuel : nat) (b : bool) (s : FS) :
  state (Trainer.run f fuel self b s) = state (Trainer.startup f self b s) /\
  exists rest,
    events (Trainer.run f fuel self b s)
    = events (Trainer.startup f self b s) ++ rest /\
    (rest = [] \/
     exists tail,
       rest = Logging INFO (task_as_string (Trainer.task self)
                            +:+ ": Entering training loop.")
              :: events (Trainer.training_loop f fuel self 0) ++ tail /\
       forallb is_closing tail = true).
Proof.
  unfold Trainer.run.
  destruct (Trainer.startup f self b s) as [[[[]|e] s1] t1].
  - destruct (Trainer.training_loop f fuel self 0) as [[[[]|e]|] t2];
      [| destruct e | ]; unfold state, events; cbn [fst snd];
      (split; [reflexivity|]); eexists; (split; [reflexivity|]); right;
      try (exists []; split; [now rewrite app_nil_r|reflexivity]);
      eexists; split; reflexivity.
  - unfold state, events. cbn [fst snd]. split; [reflexivity|].
    exists []. split; [now rewrite app_nil_r|now left].
Qed.

Lemma run_discipline (fuel : nat) (b : bool) (s : FS) :
  Forall (fun e => startup_discipline self b s e
                   \/ loop_event (Trainer.is_master self) e = true
                   \/ is_closing e = true)
         (events (Trainer.run f fuel self b s)).
Proof.
  destruct (run_shape fuel b s) as (_ & rest & -> & Hrest).
  destruct (startup_moves f self b s) as (_ & Hstart & _).
  apply Forall_app. split.
  - eapply Forall_impl; [exact Hstart|]. intros e He. now left.
  - destruct Hrest as [-> | (tail & -> & Htail)]; [constructor|].
    constructor; [right; now left|]. apply Forall_app. split.
    + apply List.Forall_forall. intros e He. right. left.
      pose proof (training_loop_events f self fuel 0) as Hloop.
      rewrite forallb_forall in Hloop. now apply Hloop.
    + apply List.Forall_forall. intros e He. right. right.
      rewrite forallb_forall in Htail. now apply Htail.
Qed.

Lemma events_bind_prefix {A B : Type} (c : M A) (k : A -> M B) (s : FS) :
  exists t, events ((c ≫= k) s) = events (c s) ++ t.
Proof.
  unfold mbind, M_bind, bind, events.
  destruct (c s) as [[[a|e] s1] t1]; cbn [snd].
  - destruct (k a s1) as [[r s2] t2]. now exists t2.
  - exists []. now rewrite app_nil_r.
Qed.

Lemma resume_removes_first (s : FS) :
  Trainer.is_master self = true ->
  exists t,
    events (Trainer.resume self true s)
    = Logging INFO (task_as_string (Trainer.task self)
                    +:+ ": Removing existing train directory.")
      :: DeleteRecursivelyCall (Trainer.train_dir self) :: t.
Proof.
  intros Hmaster. unfold Trainer.resume. rewrite Hmaster. cbn [andb].
  destruct (events_bind_prefix
              (Trainer.remove_training_directory self
                 (Trainer.train_dir self))
              (fun _ => Trainer.start_server_if_distributed self;;
                        Trainer.get_latest_checkpoint self true
                          (Trainer.train_dir self)) s) as (t & Ht).
  rewrite Ht, remove_training_directory_ok. unfold events. cbn [snd].
  eexists. rewrite <- app_assoc. reflexivity.
Qed.

(** X9.  What a run deletes: [DeleteRecursively] is called by the master
    that starts a new model and by no other process, on its own training
    directory and on no other; and the run of such a master begins with
    the log record of the removal followed by that call, before anything
    else happens. *)
Theorem run_file_system (fuel : nat) (b : bool) (s : FS) :
  (forall d, In (DeleteRecursivelyCall d) (events (Trainer.run f fuel self b s)) ->
     Trainer.is_master self = true /\ b = true
     /\ d = Trainer.train_dir self) /\
  (Trainer.is_master self = true -> b = true ->
   exists t,
     events (Trainer.run f fuel self b s)
     = Logging INFO (task_as_string (Trainer.task self)
                     +:+ ": Removing existing train directory.")
       :: DeleteRecursivelyCall (Trainer.train_dir self) :: t).
Proof.
  split.
  - intros d Hin. pose proof (run_discipline fuel b s) as Hall.
    rewrite List.Forall_forall in Hall.
    destruct (Hall _ Hin) as [Hd | [Hl | Hc]]; [exact Hd|discriminate..].
  - intros Hmaster ->.
    destruct (run_shape fuel true s) as (_ & rest & -> & _).
    unfold Trainer.startup.
    destruct (events_bind_prefix (Trainer.resume self true)
                (fun checkpoint =>
                   Trainer.build_model f self;;
                   logging_info (task_as_string (Trainer.task self)
                                 +:+ ": Starting managed session.");;
                   match checkpoint with
                   | Some c => Trainer.saver_restore c
                   | None => mret tt
                   end;;
                   if FLAGS.reweight f then attempt assign_weights
                   else mret tt) s) as (t & ->).
    destruct (resume_removes_first s Hmaster) as (t0 & ->).
    eexists. reflexivity.
Qed.

(** X10.  A checkpoint that a run restores is the latest checkpoint of
    the training directory, as [tf.train.latest_checkpoint] reports it
    on the file system the run found; it is not the empty string, and no
    checkpoint is restored when a new model is started. *)
Theorem restored_checkpoint_is_latest (fuel : nat) (b : bool) (s : FS)
    (c : string) :
  In (SaverRestore c) (events (Trainer.run f fuel self b s)) ->
  b = false /\ latest_checkpoint s (Trainer.train_dir self) = Some c
  /\ c <> "".
Proof.
  intros Hin. pose proof (run_discipline fuel b s) as Hall.
  rewrite List.Forall_forall in Hall.
  destruct (Hall _ Hin) as [Hd | [Hl | Hc]]; [|discriminate..].
  destruct Hd as (-> & Hlatest & Hne). unfold fs_after_resume in Hlatest.
  rewrite andb_false_r in Hlatest. now repeat split.
Qed.

(** X11.  A trainer starts a server within a cluster only, and for its
    own task: without a cluster no run starts a server. *)
Theorem server_only_in_cluster (fuel : nat) (b : bool) (s : FS)
    (job_name : string) (task_index : Z) :
  In (ServerStart job_name task_index)
     (events (Trainer.run f fuel self b s)) ->
  cluster_truthy (Trainer.cluster self) = true
  /\ job_name = TaskSpec.type (Trainer.task self)
  /\ task_index = TaskSpec.index (Trainer.task self).
Proof.
  intros Hin. pose proof (run_discipline fuel b s) as Hall.
  rewrite List.Forall_forall in Hall.
  destruct (Hall _ Hin) as [Hd | [Hl | Hc]]; [exact Hd|discriminate..].
Qed.
End RunShape.

Ltac find_event := repeat first [ left; reflexivity | right ].

Lemma run_file_system_witness :
  (Trainer.is_master Examples.master = true /\ true = true
   /\ "/tmp/yt8m_model/" = Trainer.train_dir Examples.master) /\
  exists t,
    events (Trainer.run (H := Examples.runtime 2) (H0 := Examples.modules)
              Examples.base_flags 10 Examples.master true
              ["train.tfrecord"; "/tmp/yt8m_model/"])
    = Logging INFO "/job:master/task:0: Removing existing train directory."
      :: DeleteRecursivelyCall "/tmp/yt8m_model/" :: t.
Proof.
  pose proof (run_file_system (H := Examples.runtime 2)
                (H0 := Examples.modules) Examples.base_flags
                Examples.master 10 true
                ["train.tfrecord"; "/tmp/yt8m_model/"]) as [Honly Hfirst].
  split.
  - apply (Honly "/tmp/yt8m_model/"). vm_compute. find_event.
  - exact (Hfirst eq_refl eq_refl).
Defined.

Lemma restored_checkpoint_is_latest_witness :
  false = false
  /\ latest_checkpoint (Runtime := Examples.runtime 2)
       ["train.tfrecord"; "/tmp/yt8m_model/"]
       (Trainer.train_dir Examples.master)
     = Some "/tmp/yt8m_model/model.ckpt-10"
  /\ "/tmp/yt8m_model/model.ckpt-10" <> "".
Proof.
  apply (restored_checkpoint_is_latest (H := Examples.runtime 2)
           (H0 := Examples.modules) Examples.base_flags Examples.master 10
           false ["train.tfrecord"; "/tmp/yt8m_model/"]).
  vm_compute. find_event.
Defined.

Lemma server_only_in_cluster_witness :
  cluster_truthy (Trainer.cluster Examples.worker) = true
  /\ "worker" = TaskSpec.type (Trainer.task Examples.worker)
  /\ 0 = TaskSpec.index (Trainer.task Examples.worker).
Proof.
  apply (server_only_in_cluster (H := Examples.runtime 2)
           (H0 := Examples.modules) Examples.base_flags Examples.worker 10
           false ["train.tfrecord"]).
  vm_compute. find_event.
Defined.

(** ** The passes of the loop *)

Section PassFacts.
Context `{Runtime} `{Registry.Modules}.
Variable f : FLAGS.t.
Variable self : Trainer.t.

Lemma session_indices_app (a b : list event) :
  session_indices (a ++ b) = session_indices a ++ session_indices b.
Proof. unfold session_indices. apply flat_map_app. Qed.

Lemma session_indices_iteration (steps : nat) (v : StepValues) :
  session_indices (snd (Trainer.iteration f self steps v)) = [steps].
Proof.
  rewrite iteration_unfold. destruct (Trainer.is_master self);
    [|reflexivity].
  rewrite report_unfold.
  destruct (Qeq_bool (seconds_per_batch steps) 0); reflexivity.
Qed.

Lemma session_indices_none (t : list event) :
  forallb (fun e => negb (is_session_run e)) t = true -> session_indices t = [].
Proof.
  induction t as [|e t IH]; simpl; [reflexivity|].
  intros [He Ht]%andb_true_iff. rewrite (IH Ht).
  now destruct e.
Qed.

Lemma session_runs_indices (t : list event) :
  session_runs t = length (session_indices t).
Proof.
  unfold session_runs. induction t as [|e t IH]; simpl; [reflexivity|].
  destruct e; simpl; now rewrite ?IH.
Qed.

Lemma training_loop_indices (fuel from : nat) :
  exists k,
    session_indices (events (Trainer.training_loop f fuel self from))
    = seq (S from) k /\ (k <= fuel)%nat.
Proof.
  revert from. induction fuel as [|fuel IH]; intros from.
  - exists 0%nat. split; [reflexivity|lia].
  - rewrite training_loop_S.
    destruct (should_stop from); [exists 0%nat; split; [reflexivity|lia]|].
    destruct (session_run (S from)) as [v|e];
      [|exists 1%nat; split; [reflexivity|lia]].
    destruct (fst (Trainer.iteration f self (S from) v)) as [[]|e].
    2:{ exists 1%nat. unfold events. cbn [snd].
        rewrite session_indices_iteration. split; [reflexivity|lia]. }
    destruct (Trainer.max_steps_exceeded f (S from)); unfold events;
      cbn [snd]; rewrite session_indices_app, session_indices_iteration.
    + exists 1%nat. split; [reflexivity|lia].
    + destruct (IH (S from)) as (k & Hk & Hle). unfold events in Hk.
      rewrite Hk. exists (S k). split; [reflexivity|lia].
Qed.

Lemma closing_no_session_run (tail : list event) :
  forallb is_closing tail = true -> session_indices tail = [].
Proof.
  intros Htail. apply session_indices_none.
  apply (forallb_impl is_closing); [|exact Htail].
  intros []; simpl; try reflexivity; discriminate.
Qed.

(** X12.  The session runs of a run are numbered 1, 2, 3, ... in the
    order in which they happen, with no gap and no repetition, and there
    are no more of them than passes of the loop. *)
Theorem session_runs_in_sequence (fuel : nat) (b : bool) (s : FS) :
  exists k,
    session_indices (events (Trainer.run f fuel self b s)) = seq 1 k
    /\ (k <= fuel)%nat
    /\ session_runs (events (Trainer.run f fuel self b s)) = k.
Proof.
  destruct (run_shape f self fuel b s) as (_ & rest & Hrun & Hrest).
  assert (Hstart : session_indices (events (Trainer.startup f self b s)) = []).
  { apply session_indices_none, startup_no_session_run. }
  destruct (training_loop_indices fuel 0) as (k & Hk & Hle).
  destruct Hrest as [-> | (tail & -> & Htail)].
  - exists 0%nat. rewrite session_runs_indices, Hrun.
    rewrite session_indices_app, Hstart. repeat split. lia.
  - exists k. rewrite session_runs_indices, Hrun.
    change (?x :: ?t ++ tail) with ([x] ++ t ++ tail).
    rewrite !session_indices_app, Hstart, Hk,
      (closing_no_session_run tail Htail).
    simpl. rewrite app_nil_r. repeat split; [exact Hle|apply length_seq].
Qed.

Lemma training_loop_exit (fuel from : nat) (r : result unit) (t : list event) :
  Trainer.training_loop f fuel self from = (Some r, t) ->
  match r with
  | Ok _ =>
    should_stop (from + session_runs t) = true
    \/ ((0 < session_runs t)%nat
        /\ Trainer.max_steps_exceeded f (from + session_runs t) = true)
  | Raise e =>
    (0 < session_runs t)%nat
    /\ (session_run (from + session_runs t) = Raise e
        \/ exists v,
             session_run (from + session_runs t) = Ok v
             /\ fst (Trainer.iteration f self (from + session_runs t) v)
                = Raise e)
  end.
Proof.
  revert from r t. induction fuel as [|fuel IH]; intros from r t;
    [discriminate|].
  rewrite training_loop_S.
  destruct (should_stop from) eqn:Hstop.
  { intros [= <- <-]. left. now rewrite Nat.add_0_r. }
  destruct (session_run (S from)) as [v|e] eqn:Hrun.
  2:{ intros [= <- <-]. change (session_runs [SessionRun (S from)]) with 1%nat.
      rewrite Nat.add_1_r. split; [lia|left; exact Hrun]. }
  destruct (fst (Trainer.iteration f self (S from) v)) as [[]|e] eqn:Hit.
  2:{ intros [Er <-]%pair_equal_spec. injection Er as <-.
      rewrite (session_runs_iteration f self), Nat.add_1_r.
      split; [lia|right]. exists v. split; [exact Hrun|exact Hit]. }
  destruct (Trainer.max_steps_exceeded f (S from)) eqn:Hmax.
  - intros [Er <-]%pair_equal_spec. injection Er as <-. right.
    rewrite session_runs_app, (session_runs_iteration f self).
    change (session_runs [Logging _ _]) with 0%nat.
    rewrite Nat.add_1_r. split; [lia|exact Hmax].
  - destruct (Trainer.training_loop f fuel self (S from)) as [r' t'] eqn:Hloop.
    cbn [fst snd]. intros [Er <-]%pair_equal_spec. subst r'.
    specialize (IH (S from) r t' Hloop).
    rewrite session_runs_app, (session_runs_iteration f self).
    replace (from + (1 + session_runs t'))%nat
      with (S from + session_runs t')%nat by lia.
    destruct r; [destruct IH as [IH | [Hpos IH]]; [now left|right]|];
      (split; [lia|apply IH]).
Qed.

(** X13.  Why a run that reached the loop comes to an end, [k] being the
    number of its session runs: it returns without an exception only when
    the supervisor asked to stop after [k] passes, when pass [k]
    exceeded [max_steps], or when session run [k] raised
    [OutOfRangeError]; it ends with an exception [e], which is not
    [OutOfRangeError], only when session run [k] raised [e], or when
    session run [k] returned and the report of the master raised the
    [ZeroDivisionError] of line 547, the measured time of pass [k] being
    zero. *)
Theorem run_exit_reason (fuel : nat) (b : bool) (s : FS) (r : result unit) :
  outcome (Trainer.startup f self b s) = Ok tt ->
  outcome (Trainer.run f fuel self b s) = Some r ->
  let k := session_runs (events (Trainer.run f fuel self b s)) in
  match r with
  | Ok _ =>
    should_stop k = true
    \/ ((0 < k)%nat /\ Trainer.max_steps_exceeded f k = true)
    \/ ((0 < k)%nat /\ session_run k = Raise OutOfRangeError)
  | Raise e =>
    (0 < k)%nat /\ e <> OutOfRangeError /\
    (session_run k = Raise e
     \/ ((exists v, session_run k = Ok v)
         /\ Trainer.is_master self = true
         /\ Qeq_bool (seconds_per_batch k) 0 = true
         /\ e = ZeroDivisionError "float division by zero"))
  end.
Proof.
  intros Hstart. pose proof (startup_no_session_run f self b s) as Hquiet.
  apply session_runs_none in Hquiet.
  unfold Trainer.run.
  destruct (Trainer.startup f self b s) as [[[[]|e0] s1] t1];
    [|discriminate]. clear Hstart. unfold events in Hquiet.
  cbn [snd] in Hquiet.
  destruct (Trainer.training_loop f fuel self 0) as [[r2|] t2] eqn:Hloop;
    [|discriminate].
  pose proof (training_loop_exit fuel 0 r2 t2 Hloop) as Hexit.
  cbn [Nat.add] in Hexit.
  assert (Hcount : forall tail,
            forallb is_closing tail = true ->
            session_runs (t1 ++ Logging INFO
                                  (task_as_string (Trainer.task self)
                                   +:+ ": Entering training loop.")
                               :: t2 ++ tail) = session_runs t2).
  { intros tail Htail. change (?x :: ?t ++ tail) with ([x] ++ t ++ tail).
    rewrite !session_runs_app, Hquiet, (session_runs_indices tail),
      (closing_no_session_run tail Htail). cbn. lia. }
  assert (Hreason : forall e,
            r2 = Raise e -> e <> OutOfRangeError ->
            (0 < session_runs t2)%nat /\ e <> OutOfRangeError /\
            (session_run (session_runs t2) = Raise e
             \/ ((exists v, session_run (session_runs t2) = Ok v)
                 /\ Trainer.is_master self = true
                 /\ Qeq_bool (seconds_per_batch (session_runs t2)) 0 = true
                 /\ e = ZeroDivisionError "float division by zero"))).
  { intros e -> Hne. destruct Hexit as [Hpos [Hrun | (v & Hv & Hit)]].
    - split; [exact Hpos|]. split; [exact Hne|]. now left.
    - apply (iteration_raises f self) in Hit as (-> & Hm & Hclock & _).
      split; [exact Hpos|]. split; [exact Hne|]. right.
      split; [now exists v|]. now repeat split. }
  destruct r2 as [[]|e].
  - unfold outcome, events. cbn [fst snd]. intros [= <-]. cbv zeta.
    rewrite Hcount by reflexivity.
    destruct Hexit as [Hs | Hm]; [now left|right; now left].
  - destruct e; unfold outcome, events; cbn [fst snd]; intros [= <-];
      cbv zeta;
      try (rewrite <- (app_nil_r t2), (Hcount [] eq_refl);
           apply Hreason; [reflexivity|discriminate]).
    rewrite Hcount by reflexivity. right. right.
    destruct Hexit as [Hpos [Hrun | (v & Hv & Hit)]];
      [split; [exact Hpos|exact Hrun]|].
    apply (iteration_raises f self) in Hit as (Habs & _). discriminate.
Qed.

(** X14.  When the supervisor asks to stop after [n] passes, each with
    a session run that returned and, on the master, a report that raised
    nothing, the run makes exactly [n] session runs, logs the exit from
    the loop, stops the supervisor and returns without an exception. *)
Theorem supervisor_stop (b : bool) (s : FS) (n fuel : nat) :
  outcome (Trainer.startup f self b s) = Ok tt ->
  Trainer.plain_passes f self 0 n -> should_stop n = true ->
  (n < fuel)%nat ->
  let ran := Trainer.run f fuel self b s in
  outcome ran = Some (Ok tt) /\
  session_runs (events ran) = n /\
  (exists t,
     events ran
     = t ++ [Logging INFO (task_as_string (Trainer.task self)
                           +:+ ": Exited training loop.");
             SupervisorStop]).
Proof.
  intros Hstart Hplain Hstop Hfuel ran.
  pose proof (startup_no_session_run f self b s) as Hquiet.
  apply session_runs_none in Hquiet.
  subst ran. unfold Trainer.run.
  destruct (Trainer.startup f self b s) as [[[[]|e0] s1] t1];
    [|discriminate]. clear Hstart. unfold events in Hquiet.
  cbn [snd] in Hquiet.
  replace fuel with (n + S (fuel - n - 1))%nat by lia.
  destruct (training_loop_plain f self n 0 (S (fuel - n - 1)) Hplain)
    as (pre & -> & Hcount).
  cbn [Nat.add]. rewrite training_loop_S, Hstop. cbn [fst snd].
  rewrite app_nil_r. unfold outcome, events. cbn [fst snd].
  split; [reflexivity|]. split.
  - change (?x :: ?t ++ ?u) with ([x] ++ t ++ u).
    rewrite !session_runs_app, Hquiet, Hcount. cbn. lia.
  - exists (t1 ++ Logging INFO (task_as_string (Trainer.task self)
                             +:+ ": Entering training loop.") :: pre).
    rewrite <- !app_assoc. reflexivity.
Qed.
End PassFacts.

Lemma run_exit_reason_witness :
  should_stop (Runtime := Examples.runtime 2) 3 = true
  \/ ((0 < 3)%nat
      /\ Trainer.max_steps_exceeded Examples.base_flags 3 = true)
  \/ ((0 < 3)%nat
      /\ session_run (Runtime := Examples.runtime 2) 3
         = Raise OutOfRangeError).
Proof.
  exact (run_exit_reason (H := Examples.runtime 2) (H0 := Examples.modules)
           Examples.base_flags Examples.master 10 false ["train.tfrecord"]
           (Ok tt) eq_refl eq_refl).
Defined.

Lemma supervisor_stop_witness :
  let ran :=
    Trainer.run (H := stopping_runtime 1) (H0 := Examples.modules)
      Examples.base_flags 10 Examples.master false ["train.tfrecord"] in
  outcome ran = Some (Ok tt) /\ session_runs (events ran) = 1%nat.
Proof.
  assert (Hplain : Trainer.plain_passes (H := stopping_runtime 1)
                     Examples.base_flags Examples.master 0 1).
  { intros i Hi. assert (i = 0%nat) as -> by lia.
    split; [reflexivity|]. split; [|reflexivity].
    eexists. split; reflexivity. }
  destruct (supervisor_stop (H := stopping_runtime 1)
              (H0 := Examples.modules) Examples.base_flags Examples.master
              false ["train.tfrecord"] 1 10 eq_refl Hplain eq_refl
              ltac:(lia)) as (Hout & Hruns & _).
  split; [exact Hout|exact Hruns].
Defined.

(** * Further properties of [main] *)

Section MainFacts.
Context `{Runtime} `{Registry.Modules}.
Variable f : FLAGS.t.

(** X15.  Within a cluster, a task that is neither master nor worker
    never trains.  A parameter server logs, starts its server and serves:
    [main] does not return, or raises what the start of the server
    raised.  Every other task type makes [main] raise [ValueError] after
    the line with the version.  In both cases the file system is left as
    it was, and the flags play no part. *)
Theorem main_other_roles (fuel : nat) (env : Environ) (c : ClusterSpec)
    (task : TaskSpec.t) (s : FS) :
  cluster_data env = Some c -> cluster_truthy (Some c) = true ->
  task_data env = Some task ->
  TaskSpec.type task <> "master" -> TaskSpec.type task <> "worker" ->
  let version :=
    Logging INFO (task_as_string task +:+ ": Tensorflow version: "
                  +:+ tf_version +:+ ".") in
  main fuel f env s =
  if String.eqb (TaskSpec.type task) "ps" then
    (match Server c task with
     | Ok _ => None
     | Raise e => Some (Raise e)
     end, s,
     version
     :: Logging INFO (task_as_string task
                      +:+ ": Starting parameter server within cluster "
                      +:+ str_cluster c +:+ ".")
     :: ServerStart (TaskSpec.type task) (TaskSpec.index task)
     :: match Server c task with
        | Ok _ => [ServerJoin]
        | Raise _ => []
        end)
  else
    (Some (Raise (ValueError (task_as_string task +:+ ": Invalid task_type: "
                              +:+ TaskSpec.type task +:+ "."))),
     s, [version]).
Proof.
  intros Hc Htruthy Htask Hm Hw version.
  unfold main, load_cluster, load_task, dispatch.
  rewrite Hc, Htask, Htruthy.
  change (default default_task (Some task)) with task.
  apply String.eqb_neq in Hm, Hw. rewrite Htruthy, Hm, Hw. cbn [negb orb].
  destruct (String.eqb_spec (TaskSpec.type task) "ps") as [Hps|Hps];
    [|reflexivity].
  unfold ParameterServer.run, ParameterServer.init, start_server,
    logging_info, emit, lift, mbind, M_bind, bind.
  cbn [ParameterServer.cluster ParameterServer.task].
  rewrite Hps. cbn [String.eqb Ascii.eqb Bool.eqb].
  destruct (Server c _) as [target|e]; reflexivity.
Qed.

(** X16.  Without a cluster in [TF_CONFIG], absent or empty, and without
    a task, [main] is a run of the trainer of the default task, master
    at index 0, with no cluster and the training directory of the flags;
    this run starts no server. *)
Theorem main_single_process (fuel : nat) (env : Environ) (s : FS) :
  cluster_truthy (cluster_data env) = false -> task_data env = None ->
  let trainer := {|
    Trainer.cluster := None;
    Trainer.task := default_task;
    Trainer.is_master := true;
    Trainer.train_dir := FLAGS.train_dir f
  |} in
  let ran := Trainer.run f fuel trainer (FLAGS.start_new_model f) s in
  main fuel f env s
  = (outcome ran, state ran,
     Logging INFO (task_as_string default_task +:+ ": Tensorflow version: "
                   +:+ tf_version +:+ ".") :: events ran)
  /\ (forall job_name task_index,
        ~ In (ServerStart job_name task_index) (events (main fuel f env s))).
Proof.
  intros Hcluster Htask trainer ran.
  assert (Hmain : main fuel f env s
                  = (outcome ran, state ran,
                     Logging INFO (task_as_string default_task
                                   +:+ ": Tensorflow version: "
                                   +:+ tf_version +:+ ".") :: events ran)).
  { unfold main, load_cluster, load_task, dispatch.
    rewrite Hcluster, Htask.
    change (default default_task None) with default_task.
    change (cluster_truthy None) with false. cbn [negb orb].
    rewrite trainer_init_ok.
    change (String.eqb (TaskSpec.type default_task) "master"
            && (TaskSpec.index default_task =? 0)) with true.
    fold trainer. subst ran.
    now destruct (Trainer.run f fuel trainer (FLAGS.start_new_model f) s)
      as [[r s'] t]. }
  split; [exact Hmain|].
  intros job_name task_index Hin. rewrite Hmain in Hin.
  unfold events in Hin. cbn [snd In] in Hin.
  destruct Hin as [Hin|Hin]; [discriminate|].
  pose proof (run_discipline f trainer fuel (FLAGS.start_new_model f) s)
    as Hall.
  rewrite List.Forall_forall in Hall.
  destruct (Hall _ Hin) as [[Hd _] | [Hl | Hc]]; discriminate.
Qed.
End MainFacts.

Lemma main_other_roles_witness :
  outcome (main (H := Examples.runtime 2) (H0 := Examples.modules) 10
             Examples.base_flags
             {| cluster_data := Some Examples.two_masters;
                task_data := Some {| TaskSpec.type := "ps";
                                     TaskSpec.index := 0 |} |}
             ["train.tfrecord"])
  = None.
Proof.
  rewrite (main_other_roles (H := Examples.runtime 2)
             (H0 := Examples.modules) Examples.base_flags 10
             {| cluster_data := Some Examples.two_masters;
                task_data := Some {| TaskSpec.type := "ps";
                                     TaskSpec.index := 0 |} |}
             Examples.two_masters
             {| TaskSpec.type := "ps"; TaskSpec.index := 0 |}
             ["train.tfrecord"] eq_refl eq_refl eq_refl);
    [reflexivity|discriminate|discriminate].
Defined.

Lemma main_single_process_witness :
  main (H := Examples.runtime 2) (H0 := Examples.modules) 10
    Examples.base_flags {| cluster_data := Some ∅; task_data := None |}
    ["train.tfrecord"]
  = (outcome (Trainer.run (H := Examples.runtime 2)
                (H0 := Examples.modules) Examples.base_flags 10
                Examples.master false ["train.tfrecord"]),
     state (Trainer.run (H := Examples.runtime 2)
              (H0 := Examples.modules) Examples.base_flags 10
              Examples.master false ["train.tfrecord"]),
     Logging INFO "/job:master/task:0: Tensorflow version: 1.0.0."
     :: events (Trainer.run (H := Examples.runtime 2)
                  (H0 := Examples.modules) Examples.base_flags 10
                  Examples.master false ["train.tfrecord"])).
Proof.
  exact (proj1 (main_single_process (H := Examples.runtime 2)
                  (H0 := Examples.modules) Examples.base_flags 10
                  {| cluster_data := Some ∅; task_data := None |}
                  ["train.tfrecord"] eq_refl eq_refl)).
Defined.
